(** * pld-cli: a shallow embedding of the upload tool and its stores

    The development follows [src/index.js] (the current entry point, with
    Google Drive support) and [src/unnamed/part_000] (the earlier entry
    point, Pixeldrain and Gofile only).  It covers

    - the configuration store ([loadConfig], [saveConfig],
      [getServiceCredentials], [getServiceApiKey], [deleteServiceConfig]);
    - the history store ([loadHistory], [saveHistory]);
    - the progress callback of the uploads ([onUploadProgress]);
    - the upload functions and their router, as an event-driven process
      ([uploadToPixeldrain], [uploadToGofile], [uploadFile], [handleCancel]).

    JavaScript values read from JSON are modelled by [json]; [undefined] is
    [None] in [option json].  Synchronous code runs in the monad [js], whose
    outcomes are a normal return, a thrown exception or [process.exit]. *)

From Stdlib Require Import ZArith NArith Ascii String DecimalString List Lia ZifyNat.
From Stdlib Require Import Floats.PrimFloat Floats.SpecFloat Floats.FloatOps.
From stdpp Require Import base option list gmap strings.

Set Warnings "-register-all".
Local Open Scope string_scope.
Local Open Scope Z_scope.

(** ** What the model takes from the platform

    Library and host functions whose result is only ever passed on as text.
    [number] is the type of JSON numbers as they survive a
    [JSON.stringify]/[JSON.parse] round trip; the program tests them for
    truthiness and interpolates them into strings, nothing else. *)

Class Runtime : Type := {
  number : Type;
  number_truthy : number -> bool;        (* neither 0 nor NaN *)
  number_toString : number -> string;    (* String(n) *)
  float_toString : float -> string;      (* String(x) for a computed double *)
  toFixed2 : float -> string;            (* x.toFixed(2) *)
  formatFileSize : N -> string;          (* index.js:30, uses Math.log *)
  path_basename : string -> string       (* path.basename(path.resolve(p)) *)
}.

(** ** JSON values *)

Section Values.
Context {RT : Runtime}.

Inductive json : Type :=
| JNull
| JBool (b : bool)
| JNum (n : number)
| JStr (s : string)
| JArr (l : list json)
| JObj (m : gmap string json).

(** [Boolean(v)]: the falsy values are [null], [false], [0], [NaN] and the
    empty string; [undefined] is falsy too. *)
Definition truthy (v : json) : bool :=
  match v with
  | JNull => false
  | JBool b => b
  | JNum n => number_truthy n
  | JStr s => negb (String.eqb s "")
  | JArr _ => true
  | JObj _ => true
  end.

Definition truthy_val (v : option json) : bool :=
  match v with
  | Some j => truthy j
  | None => false
  end.

(** [v[k]] for a [v] that is neither [null] nor [undefined], and a key [k]
    that is no array index and that no built-in prototype defines (the
    program only uses such keys: [services], [apiKey], [googleDrive], the
    service names, [id], [data], [fileId], [downloadPage], [message]).
    Only an object can own such a property. *)
Definition get (v : json) (k : string) : option json :=
  match v with
  | JObj m => m !! k
  | _ => None
  end.

(** [v && v[k]] read as a value: the property when [v] is there. *)
Definition get_val (v : option json) (k : string) : option json :=
  match v with
  | Some j => get j k
  | None => None
  end.

(** [v || null] *)
Definition or_null (v : option json) : json :=
  match v with
  | Some j => if truthy j then j else JNull
  | None => JNull
  end.

(** The effect of [o[k] = v] on what [JSON.stringify(o)] will print, for a
    key as in [get].  An object takes the property.  An array takes it as a
    named property, which [JSON.stringify] does not print.  A primitive
    ignores the assignment (the files are not in strict mode). *)
Definition assign (o : json) (k : string) (v : json) : json :=
  match o with
  | JObj m => JObj (<[k := v]> m)
  | _ => o
  end.

(** The effect of [delete o[k]] on what [JSON.stringify(o)] will print. *)
Definition delete_prop (o : json) (k : string) : json :=
  match o with
  | JObj m => JObj (delete k m)
  | _ => o
  end.

(** A property of an object literal whose value may be [undefined]:
    [JSON.stringify] leaves such a property out. *)
Definition with_field (k : string) (v : option json) (m : gmap string json)
  : gmap string json :=
  match v with
  | Some j => <[k := j]> m
  | None => m
  end.

(** [String(v)], which is also what a template literal does with [v].
    An array prints its elements separated by commas, [null] elements as
    nothing.  An object prints as [[object Object]], unless it owns a
    property named [toString]: a value read from JSON is not callable, the
    conversion then finds no primitive and throws a TypeError ([None]). *)
Fixpoint to_string (v : json) : option string :=
  match v with
  | JNull => Some "null"
  | JBool b => Some (if b then "true" else "false")
  | JNum n => Some (number_toString n)
  | JStr s => Some s
  | JArr l =>
      (fix join (l : list json) : option string :=
         match l with
         | [] => Some ""
         | x :: r =>
             match (match x with JNull => Some "" | _ => to_string x end) with
             | None => None
             | Some s =>
                 match r with
                 | [] => Some s
                 | _ :: _ =>
                     match join r with
                     | None => None
                     | Some t => Some (s ++ "," ++ t)
                     end
                 end
             end
         end) l
  | JObj m =>
      match m !! "toString" with
      | Some _ => None
      | None => Some "[object Object]"
      end
  end.

Definition to_string_val (v : option json) : option string :=
  match v with
  | Some j => to_string j
  | None => Some "undefined"
  end.

(** ** The world the program runs in *)

(** A file of the configuration directory: absent, holding text that
    [JSON.parse] rejects, or holding a JSON document. *)
Inductive file : Type :=
| Missing
| Unparsable
| Doc (j : json).

(** What the catch blocks tell apart: an axios error carrying a response,
    an axios error carrying only the request, and everything else. *)
Inductive error : Type :=
| TypeError
| HttpError (status : Z) (data : option json) (statusText : string)
| NetworkError
| OtherError (msg : string).

Inductive upload_service : Type := ToPixeldrain | ToGofile.

(** Console output, one constructor per message of the source. *)
Inductive message : Type :=
| MsgConfigWarning
| MsgHistoryWarning
| MsgKeyDeleted
| MsgNoKeyToDelete
| MsgDeleteError
| MsgNoFilePath
| MsgSizeWarning
| MsgDeclined
| MsgNoPixeldrainKey
| MsgFileNotFound (path : string)
| MsgFileInfo (svc : upload_service) (name size : string)
| MsgSpinnerStart (svc : upload_service)
| MsgSpinnerText (text : string)
| MsgCancelled
| MsgUploadComplete
| MsgSuccess (link : option string)
| MsgCopied
| MsgCopyFailed
| MsgUploadFailed
| MsgServerError (status : Z)
| MsgInvalidKey
| MsgServerMessage (text : string)
| MsgNetworkError
| MsgError.

(** The one listener the program ever registers on SIGINT. *)
Inductive listener : Type := HandleCancel.

Record request : Type := Request {
  req_url : string;
  req_authorization : option string;   (* the Authorization header, if any *)
  req_filename : string;
  req_contentType : option string      (* content type of the file part *)
}.

Record world : Type := World {
  config_file : file;                  (* ~/.pld/config.json *)
  history_file : file;                 (* ~/.pld/history.json *)
  local_files : gmap string N;         (* existing files and their size *)
  console : list message;              (* newest first *)
  sigint_listeners : list listener;    (* process.on('SIGINT', _) *)
  aborted : bool;                      (* abortController.signal.aborted *)
  sent : list request;                 (* requests handed to axios *)
  clipboard : option string
}.

Definition set_config_file (f : file) (w : world) : world :=
  World f (history_file w) (local_files w) (console w) (sigint_listeners w)
        (aborted w) (sent w) (clipboard w).
Definition set_history_file (f : file) (w : world) : world :=
  World (config_file w) f (local_files w) (console w) (sigint_listeners w)
        (aborted w) (sent w) (clipboard w).
Definition set_console (c : list message) (w : world) : world :=
  World (config_file w) (history_file w) (local_files w) c (sigint_listeners w)
        (aborted w) (sent w) (clipboard w).
Definition set_sigint_listeners (l : list listener) (w : world) : world :=
  World (config_file w) (history_file w) (local_files w) (console w) l
        (aborted w) (sent w) (clipboard w).
Definition set_aborted (b : bool) (w : world) : world :=
  World (config_file w) (history_file w) (local_files w) (console w)
        (sigint_listeners w) b (sent w) (clipboard w).
Definition set_sent (l : list request) (w : world) : world :=
  World (config_file w) (history_file w) (local_files w) (console w)
        (sigint_listeners w) (aborted w) l (clipboard w).
Definition set_clipboard (c : option string) (w : world) : world :=
  World (config_file w) (history_file w) (local_files w) (console w)
        (sigint_listeners w) (aborted w) (sent w) c.

(** The world of a first run: no files, nothing said or sent yet. *)
Definition fresh_world : world :=
  World Missing Missing ∅ [] [] false [] None.

(** ** Synchronous code: state, exceptions and [process.exit] *)

Inductive outcome (A : Type) : Type :=
| Return (a : A) (w : world)
| Throw (e : error) (w : world)
| Exit (code : Z) (w : world).
Arguments Return {A} a w.
Arguments Throw {A} e w.
Arguments Exit {A} code w.

Definition js (A : Type) : Type := world -> outcome A.

Definition ret {A} (a : A) : js A := fun w => Return a w.

Definition bind {A B} (c : js A) (k : A -> js B) : js B :=
  fun w =>
    match c w with
    | Return a w' => k a w'
    | Throw e w' => Throw e w'
    | Exit code w' => Exit code w'
    end.

Definition throw {A} (e : error) : js A := fun w => Throw e w.

(** [process.exit(code)]: no catch block sees it. *)
Definition process_exit {A} (code : Z) : js A := fun w => Exit code w.

(** [try { body } catch (error) { handler }] *)
Definition try_catch {A} (body : js A) (handler : error -> js A) : js A :=
  fun w =>
    match body w with
    | Throw e w' => handler e w'
    | o => o
    end.

Definition modify (f : world -> world) : js unit := fun w => Return tt (f w).
Definition reads {A} (f : world -> A) : js A := fun w => Return (f w) w.

(** A conversion that throws a TypeError where the pure function has no
    result. *)
Definition or_throw {A} (o : option A) : js A :=
  match o with
  | Some a => ret a
  | None => throw TypeError
  end.

Definition console_log (m : message) : js unit :=
  modify (fun w => set_console (m :: console w) w).

(** The value an outcome returns, if it returns. *)
Definition result {A} (o : outcome A) : option A :=
  match o with
  | Return a _ => Some a
  | _ => None
  end.

(** The world an outcome ends in. *)
Definition final {A} (o : outcome A) : world :=
  match o with
  | Return _ w => w
  | Throw _ w => w
  | Exit _ w => w
  end.

End Values.

Arguments Return {RT A} a w.
Arguments Throw {RT A} e w.
Arguments Exit {RT A} code w.

Notation "'let!' x ':=' c 'in' k" := (bind c (fun x => k))
  (at level 10, x pattern, c at level 100, k at level 200, only parsing).

(** ** The two stores *)

(** The names under which [config.json] files the credentials of a service
    ([saveConfig]'s first argument at its call sites). *)
Inductive service : Type := Pixeldrain | Gofile | GoogleDrive.

Definition service_key (s : service) : string :=
  match s with
  | Pixeldrain => "pixeldrain"
  | Gofile => "gofile"
  | GoogleDrive => "googleDrive"
  end.

Definition is_pixeldrain (s : service) : bool :=
  match s with
  | Pixeldrain => true
  | _ => false
  end.

Section Stores.
Context {RT : Runtime}.

(** [ensureConfigDir] creates [~/.pld] when it is missing; the directory is
    not part of [world]. *)
Definition ensureConfigDir : js unit := ret tt.

(** [fs.writeFileSync(FILE, JSON.stringify(doc, null, 2))]: from then on the
    file parses to [doc]. *)
Definition writeConfig (doc : json) : js unit :=
  modify (set_config_file (Doc doc)).
Definition writeHistory (doc : json) : js unit :=
  modify (set_history_file (Doc doc)).

(** *** History (the same text in both entry points) *)

(** index.js:389 *)
Definition loadHistory : js json :=
  let! f := reads history_file in
  match f with
  | Doc j => ret j
  | Unparsable => let! _ := console_log MsgHistoryWarning in ret (JArr [])
  | Missing => ret (JArr [])
  end.

(** index.js:402.  [history.unshift] exists on arrays only: whatever else
    the file parses to, the call throws a TypeError. *)
Definition saveHistory (entry : json) : js unit :=
  let! _ := ensureConfigDir in
  let! history := loadHistory in
  match history with
  | JArr l =>
      let unshifted := entry :: l in
      let kept :=
        if (50 <? length unshifted)%nat then take 50 unshifted else unshifted in
      writeHistory (JArr kept)
  | _ => throw TypeError
  end.

(** The list a history file stands for, as [loadHistory] reads it. *)
Definition history_list (f : file) : option (list json) :=
  match f with
  | Missing => Some []
  | Unparsable => Some []
  | Doc (JArr l) => Some l
  | Doc _ => None
  end.

(** Reading a stored document by key, and by a path of two keys. *)
Definition doc_get (f : file) (k : string) : option json :=
  match f with
  | Doc j => get j k
  | _ => None
  end.

Definition doc_get2 (f : file) (k1 k2 : string) : option json :=
  get_val (doc_get f k1) k2.

(** The entry [{ apiKey: apiKey, updatedAt: now }] that both versions of
    [saveConfig] file under a service name. *)
Definition service_entry (apiKey : option json) (now : string) : json :=
  JObj (<["updatedAt" := JStr now]> (with_field "apiKey" apiKey ∅)).

(** [if (!config.services) config.services = {};
     config.services[key] = entry], as it shows in [JSON.stringify(config)].
    On an object, [services] is replaced by [{}] when falsy, then takes the
    entry.  On an array both assignments create named properties that are
    not printed.  On a primitive the first assignment is ignored, and the
    second one reads a property of [undefined]: a TypeError ([None]). *)
Definition put_service (config : json) (key : string) (entry : json)
  : option json :=
  match config with
  | JObj m =>
      let services :=
        match m !! "services" with
        | Some s => if truthy s then s else JObj ∅
        | None => JObj ∅
        end in
      Some (JObj (<["services" := assign services key entry]> m))
  | JArr _ => Some config
  | _ => None
  end.

End Stores.

(** ** Text encodings used for the Authorization header *)

(** [Buffer.from(s).toString('base64')]: the standard alphabet, with
    padding.  Strings are held as their UTF-8 bytes, which is what
    [Buffer.from] encodes. *)
Definition base64_alphabet : string :=
  "ABCDEFGHIJKLMNOPQRSTUVWXYZabcdefghijklmnopqrstuvwxyz0123456789+/".

Definition base64_char (n : nat) : ascii :=
  match String.get n base64_alphabet with
  | Some c => c
  | None => "="%char
  end.

Fixpoint base64 (s : string) : string :=
  match s with
  | EmptyString => ""
  | String a EmptyString =>
      let x := nat_of_ascii a in
      String (base64_char (x / 4))
        (String (base64_char (x mod 4 * 16)) "==")
  | String a (String b EmptyString) =>
      let x := nat_of_ascii a in
      let y := nat_of_ascii b in
      String (base64_char (x / 4))
        (String (base64_char (x mod 4 * 16 + y / 16))
           (String (base64_char (y mod 16 * 4)) "="))
  | String a (String b (String c rest)) =>
      let x := nat_of_ascii a in
      let y := nat_of_ascii b in
      let z := nat_of_ascii c in
      String (base64_char (x / 4))
        (String (base64_char (x mod 4 * 16 + y / 16))
           (String (base64_char (y mod 16 * 4 + z / 64))
              (String (base64_char (z mod 64)) (base64 rest))))
  end%nat.

(** The receiving side, to say what the header means: decoding, and the
    split of Basic credentials at the first colon (RFC 7617). *)
Fixpoint index_of (c : ascii) (s : string) : option nat :=
  match s with
  | EmptyString => None
  | String d r => if Ascii.eqb c d then Some 0%nat else S <$> index_of c r
  end.

Definition base64_index (c : ascii) : option nat := index_of c base64_alphabet.

Fixpoint base64_decode (s : string) : option string :=
  match s with
  | EmptyString => Some ""
  | String c1 (String c2 (String c3 (String c4 rest))) =>
      match base64_index c1, base64_index c2 with
      | Some n1, Some n2 =>
          let a := ascii_of_nat (n1 * 4 + n2 / 16) in
          if Ascii.eqb c4 "=" then
            match rest with
            | EmptyString =>
                if Ascii.eqb c3 "=" then Some (String a "")
                else
                  match base64_index c3 with
                  | Some n3 =>
                      Some (String a
                              (String (ascii_of_nat (n2 mod 16 * 16 + n3 / 4)) ""))
                  | None => None
                  end
            | String _ _ => None
            end
          else
            match base64_index c3, base64_index c4, base64_decode rest with
            | Some n3, Some n4, Some t =>
                Some (String a
                        (String (ascii_of_nat (n2 mod 16 * 16 + n3 / 4))
                           (String (ascii_of_nat (n3 mod 4 * 64 + n4)) t)))
            | _, _, _ => None
            end
      | _, _ => None
      end
  | _ => None
  end%nat.

Fixpoint split_colon (s : string) : option (string * string) :=
  match s with
  | EmptyString => None
  | String c r =>
      if Ascii.eqb c ":" then Some ("", r)
      else
        match split_colon r with
        | Some (user, password) => Some (String c user, password)
        | None => None
        end
  end.

(** The user-id and password a server reads from an Authorization header
    of the Basic scheme. *)
Definition basic_credentials (header : string) : option (string * string) :=
  match header with
  | String "B" (String "a" (String "s" (String "i" (String "c" (String " " payload))))) =>
      match base64_decode payload with
      | Some text => split_colon text
      | None => None
      end
  | _ => None
  end.

(** ** Numbers of the progress callback

    JavaScript numbers are IEEE 754 doubles: [float], with the kernel's
    operations for [+ - * /] and the comparisons.  [Math.floor],
    [Math.round] and [%] are computed exactly on the mantissa and exponent
    of their argument. *)

Definition float_of_Z (z : Z) : float :=
  SF2Prim (binary_normalize prec emax z 0 false).

Definition signed (s : bool) (m : positive) : Z :=
  if s then Z.neg m else Z.pos m.

(** [Math.floor(x)] *)
Definition Math_floor (x : float) : float :=
  match Prim2SF x with
  | S754_finite s m e =>
      if 0 <=? e then x else float_of_Z (Z.shiftr (signed s m) (- e))
  | _ => x
  end.

(** [Math.round(x)]: the nearest integer, halves towards +infinity, that is
    floor(x + 1/2) computed without rounding; a result of zero keeps the
    sign of [x]. *)
Definition Math_round (x : float) : float :=
  match Prim2SF x with
  | S754_finite s m e =>
      if 0 <=? e then x
      else
        let z := Z.shiftr (2 * signed s m + 2 ^ (- e)) (1 - e) in
        if z =? 0 then (if s then neg_zero else zero) else float_of_Z z
  | _ => x
  end.

(** [x % y]: the remainder of the truncated division, with the sign of
    [x]; NaN when [x] is infinite or [y] is zero. *)
Definition js_rem (x y : float) : float :=
  match Prim2SF x, Prim2SF y with
  | S754_nan, _ => nan
  | _, S754_nan => nan
  | S754_infinity _, _ => nan
  | _, S754_zero _ => nan
  | S754_zero _, _ => x
  | S754_finite _ _ _, S754_infinity _ => x
  | S754_finite sx mx ex, S754_finite _ my ey =>
      let e := Z.min ex ey in
      let a := Z.pos mx * 2 ^ (ex - e) in
      let b := Z.pos my * 2 ^ (ey - e) in
      let r := a mod b in
      if r =? 0 then (if sx then neg_zero else zero)
      else SF2Prim (binary_normalize prec emax (if sx then - r else r) e false)
  end.

(** [Boolean(x)] for a number. *)
Definition float_truthy (x : float) : bool :=
  negb (PrimFloat.is_zero x || PrimFloat.is_nan x).

(** The two variables the callback closes over (index.js:771). *)
Record tracker : Type := Tracker {
  lastLoaded : float;
  lastTime : float
}.

(** What axios passes to [onUploadProgress]; [total] is [undefined] when the
    length of the body is not known. *)
Record progressEvent : Type := ProgressEvent {
  loaded : float;
  total : option float
}.

(** The constants computed at one sample. *)
Record sample : Type := Sample {
  percentCompleted : float;
  timeDiff : float;
  speedBps : float;
  etaSeconds : float;
  etaMin : float;
  etaSec : float
}.

(** index.js:795-810, for a [total] that is there and a positive
    [timeDiff]. *)
Definition compute_sample (tr : tracker) (loaded total currentTime : float)
  : sample :=
  let percentCompleted := Math_round (loaded * 100 / total)%float in
  let timeDiff := ((currentTime - lastTime tr) / 1000)%float in
  let loadedDiff := (loaded - lastLoaded tr)%float in
  let speedBps := (loadedDiff / timeDiff)%float in
  let remainingBytes := (total - loaded)%float in
  let etaSeconds := Math_round (remainingBytes / speedBps)%float in
  let etaMin := Math_floor (etaSeconds / 60)%float in
  let etaSec := js_rem etaSeconds 60%float in
  Sample percentCompleted timeDiff speedBps etaSeconds etaMin etaSec.

(** index.js:793: the callback, as a function of the tracked variables.
    It returns their new values and, when it computed one, the sample. *)
Definition onUploadProgress (tr : tracker) (ev : progressEvent)
    (currentTime : float) : tracker * option sample :=
  match total ev with
  | Some t =>
      if float_truthy t then
        let s := compute_sample tr (loaded ev) t currentTime in
        if (0 <? timeDiff s)%float
        then (Tracker (loaded ev) currentTime, Some s)
        else (tr, None)
      else (tr, None)
  | None => (tr, None)
  end.

(** ** The uploads *)

Definition PIXELDRAIN_UPLOAD_URL : string := "https://pixeldrain.com/api/file".
Definition GOFILE_UPLOAD_URL : string := "https://store1.gofile.io/uploadFile".

(** What an upload function holds on to while it awaits [axios.post]. *)
Record pending : Type := Pending {
  p_service : upload_service;
  p_fileName : string;
  p_fileSize : string;
  p_tracker : tracker
}.

Section Uploads.
Context {RT : Runtime}.

(** index.js:804-816: the text given to the spinner. *)
Definition spinner_text (s : sample) : string :=
  let speedMbps := toFixed2 (speedBps s / (1024 * 1024))%float in
  let etaDisplay :=
    if (0 <? etaMin s)%float
    then float_toString (etaMin s) ++ "m " ++ float_toString (etaSec s) ++ "s"
    else float_toString (etaSec s) ++ "s" in
  "Uploading... " ++ float_toString (percentCompleted s) ++ "% "
    ++ "[" ++ speedMbps ++ " MB/s]"
    ++ " ETA: " ++ etaDisplay
    ++ " (Press Ctrl+C to cancel)".

(** [v.k] where [v] may be [null] or [undefined]: reading a property of
    either throws a TypeError ([None]). *)
Definition member (v : option json) (k : string) : option (option json) :=
  match v with
  | None => None
  | Some JNull => None
  | Some j => Some (get j k)
  end.

(** The object literal saved to the history (index.js:835, 989). *)
Definition historyEntry (service timestamp filename fileSize : string)
    (fileId downloadLink : option json) : json :=
  JObj (with_field "downloadLink" downloadLink
         (with_field "fileId" fileId
           (<["fileSize" := JStr fileSize]>
             (<["filename" := JStr filename]>
               (<["timestamp" := JStr timestamp]>
                 {[ "service" := JStr service ]}))))).

(** index.js:778 (and 932): the SIGINT listener of an upload. *)
Definition handleCancel : js unit :=
  let! _ := console_log MsgCancelled in
  let! _ := modify (set_aborted true) in
  process_exit 0.

(** index.js:859-878 (and 1013-1032): the catch block of an upload. *)
Definition upload_catch {A : Type} (e : error) : js A :=
  let! _ := console_log MsgUploadFailed in
  let! _ :=
    match e with
    | HttpError status data statusText =>
        let! _ := console_log (MsgServerError status) in
        if (status =? 401) || (status =? 403) then console_log MsgInvalidKey
        else
          let message := get_val data "message" in
          let shown :=
            if truthy_val message then message
            else if negb (String.eqb statusText "") then Some (JStr statusText)
            else Some (JStr "Unknown error") in
          let! text := or_throw (to_string_val shown) in
          console_log (MsgServerMessage text)
    | NetworkError => console_log MsgNetworkError
    | _ => console_log MsgError
    end in
  process_exit 1.

(** The part of an upload function that precedes the request: the file
    check, the announcements, and the listener (index.js:736-785). *)
Definition prepare (svc : upload_service) (filePath : string)
  : js (string * string) :=
  let! files := reads local_files in
  match files !! filePath with
  | None =>
      let! _ := console_log (MsgFileNotFound filePath) in
      process_exit 1
  | Some size =>
      let fileName := path_basename filePath in
      let fileSize := formatFileSize size in
      let! _ := console_log (MsgFileInfo svc fileName fileSize) in
      let! _ := console_log (MsgSpinnerStart svc) in
      ret (fileName, fileSize)
  end.

(** [process.on('SIGINT', handleCancel)], then [axios.post(url, form, ...)]. *)
Definition send (svc : upload_service) (r : request) (fileName fileSize : string)
    (startTime : float) : js pending :=
  let! _ := modify (fun w => set_sigint_listeners
                               (sigint_listeners w ++ [HandleCancel]) w) in
  let! _ := modify (fun w => set_sent (r :: sent w) w) in
  ret (Pending svc fileName fileSize (Tracker 0 startTime)).

(** index.js:764: [Basic ${Buffer.from(`:${apiKey}`).toString('base64')}] *)
Definition pixeldrain_authorization (apiKey : option json) : option string :=
  match to_string_val apiKey with
  | Some k => Some ("Basic " ++ base64 (":" ++ k))
  | None => None
  end.

(** index.js:919: [if (token) headers['Authorization'] = `Bearer ${token}`] *)
Definition gofile_authorization (token : option json)
  : option (option string) :=
  if truthy_val token then
    match to_string_val token with
    | Some t => Some (Some ("Bearer " ++ t))
    | None => None
    end
  else Some None.

(** index.js:731: [uploadToPixeldrain], up to the [await]. *)
Definition uploadToPixeldrain (filePath : string) (apiKey : option json)
    (startTime : float) : js pending :=
  try_catch
    (let! (fileName, fileSize) := prepare ToPixeldrain filePath in
     let! authorization := or_throw (pixeldrain_authorization apiKey) in
     send ToPixeldrain
       (Request PIXELDRAIN_UPLOAD_URL (Some authorization) fileName
          (Some "application/octet-stream"))
       fileName fileSize startTime)
    upload_catch.

(** index.js:882: [uploadToGofile], up to the [await].  The request goes
    to the literal address of index.js:942, not to [GOFILE_UPLOAD_URL]. *)
Definition uploadToGofile (filePath : string) (token : option json)
    (startTime : float) : js pending :=
  try_catch
    (let! (fileName, fileSize) := prepare ToGofile filePath in
     let! authorization := or_throw (gofile_authorization token) in
     send ToGofile
       (Request "https://upload.gofile.io/uploadfile" authorization fileName None)
       fileName fileSize startTime)
    upload_catch.

Definition remove_listener (w : world) : world :=
  set_sigint_listeners (removelast (sigint_listeners w)) w.

(** [await clipboardy.write(downloadLink)] in its own try block: it fails
    when the clipboard does, and on anything that is not a string. *)
Definition copy_link (downloadLink : option json) (clipboard_works : bool)
  : js unit :=
  match downloadLink with
  | Some (JStr link) =>
      if clipboard_works then
        let! _ := modify (set_clipboard (Some link)) in
        console_log MsgCopied
      else console_log MsgCopyFailed
  | _ => console_log MsgCopyFailed
  end.

(** index.js:825-857: [uploadToPixeldrain] from the response on. *)
Definition pixeldrain_done (p : pending) (data : json) (timestamp : string)
    (clipboard_works : bool) : js unit :=
  let! _ := modify remove_listener in
  let! _ := console_log MsgUploadComplete in
  let! fileId := or_throw (member (Some data) "id") in
  let! id := or_throw (to_string_val fileId) in
  let downloadLink := "https://pixeldrain.com/u/" ++ id in
  let! _ := saveHistory
              (historyEntry "pixeldrain" timestamp (p_fileName p) (p_fileSize p)
                 fileId (Some (JStr downloadLink))) in
  let! _ := console_log (MsgSuccess (Some downloadLink)) in
  copy_link (Some (JStr downloadLink)) clipboard_works.

(** index.js:979-1011: [uploadToGofile] from the response on. *)
Definition gofile_done (p : pending) (data : json) (timestamp : string)
    (clipboard_works : bool) : js unit :=
  let! _ := modify remove_listener in
  let! _ := console_log MsgUploadComplete in
  let! inner := or_throw (member (Some data) "data") in
  let! fileId := or_throw (member inner "fileId") in
  let! downloadLink := or_throw (member inner "downloadPage") in
  let! _ := saveHistory
              (historyEntry "gofile" timestamp (p_fileName p) (p_fileSize p)
                 fileId downloadLink) in
  let! shown := or_throw (to_string_val downloadLink) in
  let! _ := console_log (MsgSuccess (Some shown)) in
  copy_link downloadLink clipboard_works.

Definition upload_done (p : pending) (data : json) (timestamp : string)
    (clipboard_works : bool) : js unit :=
  try_catch
    (match p_service p with
     | ToPixeldrain => pixeldrain_done p data timestamp clipboard_works
     | ToGofile => gofile_done p data timestamp clipboard_works
     end)
    upload_catch.

(** *** The process around an upload *)

Inductive status : Type :=
| Awaiting (p : pending)     (* the request is in flight *)
| AwaitingDrive              (* [uploadToGoogleDrive] is under way *)
| Finished                   (* the upload function has returned *)
| Exited (code : Z)          (* [process.exit(code)] *)
| Crashed (e : error)        (* an exception left the async function *)
| Killed.                    (* SIGINT with no listener *)

Record process : Type := Process {
  world_of : world;
  status_of : status
}.

(** What the event loop can deliver while an upload function is suspended. *)
Inductive event : Type :=
| Progress (ev : progressEvent) (currentTime : float)
| Sigint
| Resolved (data : json) (timestamp : string) (clipboard_works : bool)
| Rejected (e : error).

Definition settled (o : outcome unit) : process :=
  match o with
  | Return _ w => Process w Finished
  | Throw e w => Process w (Crashed e)
  | Exit code w => Process w (Exited code)
  end.

(** SIGINT runs the first listener, which never returns; without a
    listener the signal ends the process. *)
Definition deliver_sigint (pr : process) : process :=
  match sigint_listeners (world_of pr) with
  | [] => Process (world_of pr) Killed
  | HandleCancel :: _ =>
      match handleCancel (world_of pr) with
      | Return _ w => Process w (status_of pr)
      | Throw e w => Process w (Crashed e)
      | Exit code w => Process w (Exited code)
      end
  end.

Definition report (smp : option sample) (w : world) : world :=
  match smp with
  | Some s => set_console (MsgSpinnerText (spinner_text s) :: console w) w
  | None => w
  end.

Definition step (pr : process) (e : event) : process :=
  match status_of pr with
  | Awaiting p =>
      match e with
      | Progress ev currentTime =>
          let (tr, smp) := onUploadProgress (p_tracker p) ev currentTime in
          Process (report smp (world_of pr))
            (Awaiting (Pending (p_service p) (p_fileName p) (p_fileSize p) tr))
      | Sigint => deliver_sigint pr
      | Resolved data timestamp clipboard_works =>
          settled (upload_done p data timestamp clipboard_works (world_of pr))
      | Rejected err => settled (upload_catch err (world_of pr))
      end
  | AwaitingDrive | Finished =>
      match e with
      | Sigint => deliver_sigint pr
      | _ => pr
      end
  | Exited _ | Crashed _ | Killed => pr
  end.

Definition run (pr : process) (events : list event) : process :=
  fold_left step events pr.

(** *** What the two routers share (index.js:1152, part_000:737) *)

Definition lower (c : ascii) : ascii :=
  let n := nat_of_ascii c in
  if ((65 <=? n) && (n <=? 90))%nat then ascii_of_nat (n + 32) else c.

(** [s.toLowerCase()] on the letters A to Z; no other character becomes
    one of [y], [e], [s], which is all the comparison below looks at. *)
Fixpoint toLowerCase (s : string) : string :=
  match s with
  | EmptyString => EmptyString
  | String c r => String (lower c) (toLowerCase r)
  end.

(** [answer.toLowerCase() === 'y' || answer.toLowerCase() === 'yes'] *)
Definition affirmative (answer : string) : bool :=
  String.eqb (toLowerCase answer) "y" || String.eqb (toLowerCase answer) "yes".

(** [serviceFlag]: [program.args[0]], [undefined] when absent. *)
Definition route (serviceFlag : option string) : service :=
  match serviceFlag with
  | Some flag =>
      if String.eqb flag "gf" then Gofile
      else if String.eqb flag "pd" then Pixeldrain
      else if String.eqb flag "gd" then GoogleDrive
      else Gofile
  | None => Gofile
  end.

(** index.js:1181-1219: the size check before an upload to Pixeldrain.
    [answer] is what the user types if asked.  A file of more than 10 GiB
    is one whose size divided by 2^30 exceeds 10. *)
Definition size_check (filePath answer : string) : js unit :=
  try_catch
    (let! files := reads local_files in
     match files !! filePath with
     | Some size =>
         if (10 * 2 ^ 30 <? size)%N then
           let! _ := console_log MsgSizeWarning in
           if affirmative answer then ret tt
           else
             let! _ := console_log MsgDeclined in
             process_exit 0
         else ret tt
     | None => ret tt
     end)
    (fun _ => ret tt).

(** What [uploadFile] leaves running. *)
Inductive started : Type :=
| Started (p : pending)
| StartedDrive.

Definition begun (o : outcome started) : process :=
  match o with
  | Return (Started p) w => Process w (Awaiting p)
  | Return StartedDrive w => Process w AwaitingDrive
  | Throw e w => Process w (Crashed e)
  | Exit code w => Process w (Exited code)
  end.

End Uploads.

(** *** The configuration store of index.js *)

Module IndexJs.
Section Config.
Context {RT : Runtime}.

(** index.js:60: errors are swallowed. *)
Definition loadConfig : js json :=
  let! f := reads config_file in
  match f with
  | Doc j => ret j
  | _ => ret JNull
  end.

(** index.js:73 *)
Definition saveConfig (serviceType : service) (credentials : gmap string json)
    (now : string) : js unit :=
  let! _ := ensureConfigDir in
  let! loaded := loadConfig in
  let config := if truthy loaded then loaded else JObj ∅ in
  let! config :=
    match serviceType with
    | GoogleDrive =>
        ret (assign config "googleDrive"
               (JObj (<["updatedAt" := JStr now]> credentials)))
    | _ =>
        or_throw (put_service config (service_key serviceType)
                    (service_entry (credentials !! "apiKey") now))
    end in
  writeConfig config.

(** index.js:97.  The branch for the old format sits inside the test
    [config.services && config.services[serviceType]]. *)
Definition getServiceCredentials (serviceType : service) (now : string)
  : js json :=
  let! config := loadConfig in
  if negb (truthy config) then ret JNull
  else
    match serviceType with
    | GoogleDrive => ret (or_null (get config "googleDrive"))
    | _ =>
        let services := get config "services" in
        let entry := get_val services (service_key serviceType) in
        if truthy_val services && truthy_val entry then
          if truthy_val (get config "apiKey") && negb (truthy_val services)
             && is_pixeldrain serviceType
          then
            let! _ := saveConfig Pixeldrain
                        (with_field "apiKey" (get config "apiKey") ∅) now in
            ret (JObj (with_field "apiKey" (get config "apiKey") ∅))
          else ret (or_null entry)        (* truthy here: the entry itself *)
        else ret JNull
    end.

(** [credentials ? credentials.apiKey : null] (index.js:662 and 1178) *)
Definition apiKey_of (credentials : json) : option json :=
  if truthy credentials then get credentials "apiKey" else Some JNull.

(** index.js:632 *)
Definition deleteServiceConfig (s : service) : js unit :=
  try_catch
    (let! config := loadConfig in
     let services := get config "services" in
     if truthy config && truthy_val services
        && truthy_val (get_val services (service_key s))
     then
       let services' := delete_prop (or_null services) (service_key s) in
       let! _ := writeConfig (assign config "services" services') in
       console_log MsgKeyDeleted
     else console_log MsgNoKeyToDelete)
    (fun _ => console_log MsgDeleteError).

(** index.js:1152.  [answer] is what the user replies to the size warning,
    should it be shown. *)
Definition uploadFile (filePath : string) (serviceFlag : option string)
    (answer now : string) (startTime : float) : js started :=
  if String.eqb filePath "" then
    let! _ := console_log MsgNoFilePath in
    process_exit 1
  else
    match route serviceFlag with
    | GoogleDrive => ret StartedDrive
    | service =>
        let! credentials := getServiceCredentials service now in
        let apiKey := apiKey_of credentials in
        let! _ :=
          if is_pixeldrain service then size_check filePath answer
          else ret tt in
        if negb (truthy_val apiKey) && is_pixeldrain service then
          let! _ := console_log MsgNoPixeldrainKey in
          process_exit 1
        else
          match service with
          | Gofile =>
              let! p := uploadToGofile filePath apiKey startTime in
              ret (Started p)
          | _ =>
              let! p := uploadToPixeldrain filePath apiKey startTime in
              ret (Started p)
          end
    end.

(** The client [createOAuth2Client] builds (index.js:119), with the
    refresh token [getGoogleDriveClient] sets on it. *)
Record oauth2_client : Type := OAuth2Client {
  client_id : json;
  client_secret : json;
  redirect_uri : string;
  refresh_token : json
}.

(** index.js:128: [null] ([None]) unless a client id, a client secret and a
    refresh token are all stored and truthy. *)
Definition getGoogleDriveClient (now : string) : js (option oauth2_client) :=
  let! credentials := getServiceCredentials GoogleDrive now in
  match get credentials "clientId", get credentials "clientSecret" with
  | Some clientId, Some clientSecret =>
      if negb (truthy credentials) || negb (truthy clientId)
         || negb (truthy clientSecret)
      then ret None
      else
        match get credentials "refreshToken" with
        | Some refreshToken =>
            if truthy refreshToken
            then ret (Some (OAuth2Client clientId clientSecret
                              "http://localhost:3000/callback" refreshToken))
            else ret None
        | None => ret None
        end
  | _, _ => ret None
  end.

End Config.
End IndexJs.

(** *** The configuration store of the earlier entry point *)

Module Part000.
Section Config.
Context {RT : Runtime}.

(** part_000:54: a file that does not parse is reported. *)
Definition loadConfig : js json :=
  let! f := reads config_file in
  match f with
  | Doc j => ret j
  | Unparsable => let! _ := console_log MsgConfigWarning in ret JNull
  | Missing => ret JNull
  end.

(** part_000:67 *)
Definition saveConfig (s : service) (apiKey : option json) (now : string)
  : js unit :=
  let! _ := ensureConfigDir in
  let! loaded := loadConfig in
  let config :=
    if truthy loaded then loaded else JObj {[ "services" := JObj ∅ ]} in
  let! config :=
    or_throw (put_service config (service_key s)
                (service_entry apiKey now)) in
  writeConfig config.

(** part_000:84: the old format is handled first. *)
Definition getServiceApiKey (s : service) (now : string) : js (option json) :=
  let! config := loadConfig in
  if negb (truthy config) then ret (Some JNull)
  else
    let services := get config "services" in
    if truthy_val (get config "apiKey") && negb (truthy_val services)
       && is_pixeldrain s
    then
      let! _ := saveConfig Pixeldrain (get config "apiKey") now in
      ret (get config "apiKey")
    else
      let entry := get_val services (service_key s) in
      if truthy_val services && truthy_val entry
      then ret (get_val entry "apiKey")
      else ret (Some JNull).

(** part_000:737: no Google Drive; a flag other than [pd] means Gofile. *)
Definition uploadFile (filePath : string) (serviceFlag : option string)
    (answer now : string) (startTime : float) : js started :=
  if String.eqb filePath "" then
    let! _ := console_log MsgNoFilePath in
    process_exit 1
  else
    let service :=
      match serviceFlag with
      | Some flag => if String.eqb flag "pd" then Pixeldrain else Gofile
      | None => Gofile
      end in
    let! apiKey := getServiceApiKey service now in
    let! _ :=
      if is_pixeldrain service then size_check filePath answer
      else ret tt in
    if negb (truthy_val apiKey) && is_pixeldrain service then
      let! _ := console_log MsgNoPixeldrainKey in
      process_exit 1
    else
      match service with
      | Gofile =>
          let! p := uploadToGofile filePath apiKey startTime in
          ret (Started p)
      | _ =>
          let! p := uploadToPixeldrain filePath apiKey startTime in
          ret (Started p)
      end.

End Config.
End Part000.

(** ** The menus of the two entry points *)

(** What [deleteHistory] prints: that the history was cleared, or that
    there was none. *)
Inductive cleared : Type := HistoryCleared | NoHistoryFound.

Section Menus.
Context {RT : Runtime}.

(** index.js:416 (part_000:133).  The message it prints is the value it
    returns here.  [fs.unlinkSync] is taken to succeed, as the writes are. *)
Definition deleteHistory : js cleared :=
  let! f := reads history_file in
  match f with
  | Missing => ret NoHistoryFound
  | _ =>
      let! _ := modify (set_history_file Missing) in
      ret HistoryCleared
  end.


End Menus.

(** ** A runtime to run the model on

    JSON numbers are integers here, and the formatting functions print
    integral values only; the examples below need no more. *)

Definition show_Z (z : Z) : string := NilZero.string_of_int (Z.to_int z).

Definition show_float (x : float) : string :=
  match Prim2SF x with
  | S754_nan => "NaN"
  | S754_infinity false => "Infinity"
  | S754_infinity true => "-Infinity"
  | S754_zero _ => "0"
  | S754_finite s m e =>
      show_Z (if 0 <=? e then signed s m * 2 ^ e
              else Z.quot (signed s m) (2 ^ (- e)))
  end.

Definition example_runtime : Runtime := {|
  number := Z;
  number_truthy := fun n => negb (n =? 0);
  number_toString := show_Z;
  float_toString := show_float;
  toFixed2 := fun x => show_float x ++ ".00";
  formatFileSize := fun n => show_Z (Z.of_N n) ++ " Bytes";
  path_basename := fun p => p
|}.


(** A world with one local file of 2048 bytes. *)
Definition one_file_world : @world example_runtime :=
  World Missing Missing {[ "a.bin" := 2048%N ]} [] [] false [] None.

(** A world with one local file of 11 GiB and no configuration. *)
Definition big_file_world : @world example_runtime :=
  World Missing Missing {[ "big.iso" := (11 * 2 ^ 30)%N ]} [] [] false [] None.

(** ** Vocabulary of the statements *)

Section Vocabulary.
Context {RT : Runtime}.

(** What [loadConfig() || {}] is for a given file. *)
Definition loaded_config (f : file) : json :=
  match f with
  | Doc j => if truthy j then j else JObj ∅
  | _ => JObj ∅
  end.

(** A stored document of the old format: a top-level [apiKey] and no
    [services]. *)
Definition legacy_format (f : file) : bool :=
  truthy_val (doc_get f "apiKey") && negb (truthy_val (doc_get f "services")).

(** Two worlds that differ at most in what was printed. *)
Definition said_more (w w' : world) : Prop :=
  config_file w' = config_file w /\
  history_file w' = history_file w /\
  local_files w' = local_files w /\
  sigint_listeners w' = sigint_listeners w /\
  aborted w' = aborted w /\
  sent w' = sent w /\
  clipboard w' = clipboard w.

(** The world once [send] has run: one more listener, one more request. *)
Definition in_flight (w w' : world) (r : request) : Prop :=
  config_file w' = config_file w /\
  history_file w' = history_file w /\
  local_files w' = local_files w /\
  sigint_listeners w' = (sigint_listeners w ++ [HandleCancel])%list /\
  aborted w' = aborted w /\
  sent w' = r :: sent w /\
  clipboard w' = clipboard w.

(** Two worlds that differ at most in the history file and the console. *)
Definition history_written (w w' : world) : Prop :=
  config_file w' = config_file w /\
  local_files w' = local_files w /\
  sigint_listeners w' = sigint_listeners w /\
  aborted w' = aborted w /\
  sent w' = sent w /\
  clipboard w' = clipboard w.

(** What the code after a response leaves alone: it removes the listener,
    prints, and may write the history and the clipboard. *)
Definition responded (w w' : world) : Prop :=
  config_file w' = config_file w /\
  local_files w' = local_files w /\
  sigint_listeners w' = removelast (sigint_listeners w) /\
  aborted w' = aborted w /\
  sent w' = sent w.

(** The response handler did not get as far as the history. *)
Definition failed_before_history (o : outcome unit) (w : world) : Prop :=
  (exists w', o = Exit 1 w' /\ responded w w' /\
              history_file w' = history_file w) \/
  (exists w', o = Throw TypeError w' /\ responded w w' /\
              history_file w' = history_file w).

(** Progress samples, each with the time [Date.now()] returned at it, as
    events. *)
Definition progress_events (samples : list (progressEvent * float))
  : list event :=
  map (fun s => Progress (fst s) (snd s)) samples.

(** The key stored for a service: [config.services[s].apiKey]. *)
Definition stored_key (f : file) (s : service) : option json :=
  get_val (doc_get2 f "services" (service_key s)) "apiKey".

(** The user is shown the size warning of index.js:1190 and does not answer
    [y] or [yes]. *)
Definition declines (w : world) (filePath answer : string) : bool :=
  match local_files w !! filePath with
  | Some size => (10 * 2 ^ 30 <? size)%N && negb (affirmative answer)
  | None => false
  end.

(** A configuration file under which [saveConfig] can file a service key:
    what [loadConfig() || {}] gives is an object whose [services] is absent,
    falsy or an object. *)
Definition accepts_service_keys (f : file) : bool :=
  match loaded_config f with
  | JObj m =>
      match m !! "services" with
      | Some (JObj _) => true
      | Some other => negb (truthy other)
      | None => true
      end
  | _ => false
  end.

(** A configuration file under which [saveConfig] can file the Google
    Drive credentials: what [loadConfig() || {}] gives is an object. *)
Definition accepts_sections (f : file) : bool :=
  match loaded_config f with
  | JObj _ => true
  | _ => false
  end.

(** One [saveHistory] after the other, as successive uploads make them. *)
Fixpoint saveHistory_each (entries : list json) : js unit :=
  match entries with
  | [] => ret tt
  | entry :: rest =>
      let! _ := saveHistory entry in
      saveHistory_each rest
  end.

(** The history file of [w'] holds the list of [w] with one entry put in
    front (and cut to 50). *)
Definition one_entry_added (w w' : world) : Prop :=
  exists entry h,
    history_list (history_file w) = Some h /\
    history_file w' = Doc (JArr (take 50 (entry :: h))).

(** Where a process can be once an upload function awaits its request in
    the world [w], in which its listener is the only one. *)
Definition upload_state (w : world) (pr : process) : Prop :=
  let w' := world_of pr in
  match status_of pr with
  | Awaiting _ =>
      sigint_listeners w' = [HandleCancel] /\ aborted w' = false /\
      history_file w' = history_file w
  | Finished | Killed =>
      sigint_listeners w' = [] /\ aborted w' = false /\ one_entry_added w w'
  | Exited code =>
      (code = 0 /\ aborted w' = true /\ history_file w' = history_file w) \/
      (code = 1 /\ aborted w' = false /\
       (history_file w' = history_file w \/ one_entry_added w w'))
  | Crashed e =>
      e = TypeError /\ aborted w' = false /\ history_file w' = history_file w
  | AwaitingDrive => False
  end.

End Vocabulary.

(** * Properties *)

(** Unfolding the monad. *)
Ltac js_red :=
  cbv beta iota delta
    [bind ret reads modify throw process_exit try_catch or_throw console_log
     ensureConfigDir writeConfig writeHistory].

(** ** The history store *)

Section HistoryFacts.
Context {RT : Runtime}.

Lemma loadHistory_list (w : world) (h : list json) :
  history_list (history_file w) = Some h ->
  exists w', loadHistory w = Return (JArr h) w' /\
             history_file w' = history_file w /\
             config_file w' = config_file w.
Proof.
  unfold loadHistory, bind, reads. intros H.
  destruct (history_file w) as [| |j] eqn:E; simpl in *.
  - inversion H; subst. eexists; split; [reflexivity|auto].
  - inversion H; subst. eexists; split; [reflexivity|]. simpl. auto.
  - destruct j; try discriminate. inversion H; subst.
    eexists; split; [reflexivity|auto].
Qed.

Lemma unshift_splice (e : json) (h : list json) :
  (if (50 <? length (e :: h))%nat then take 50 (e :: h) else e :: h)
  = take 50 (e :: h).
Proof.
  destruct (50 <? length (e :: h))%nat eqn:E; [reflexivity|].
  apply Nat.ltb_ge in E. symmetry. apply take_ge. exact E.
Qed.

Lemma saveHistory_keeps_first_50_cases (w : world) (h : list json) (e : json) :
  history_list (history_file w) = Some h ->
  exists w',
    saveHistory e w = Return tt w' /\
    history_file w' = Doc (JArr (take 50 (e :: h))).
Proof.
  intros H. destruct (loadHistory_list w h H) as (w1 & Hload & _).
  exists (set_history_file (Doc (JArr (take 50 (e :: h)))) w1).
  split; [|reflexivity].
  unfold saveHistory, bind, ensureConfigDir, ret. rewrite Hload.
  rewrite unshift_splice. reflexivity.
Qed.

(** C1.  Whatever list [h] the history file stands for, [saveHistory e]
    returns and leaves the file holding the first 50 elements of [e :: h]:
    [e] comes first, the length is [min (|h| + 1) 50], hence at most 50, and
    from 50 stored entries on it is the oldest ones, at the end of [h], that
    go.  The configuration file is not touched. *)
Theorem saveHistory_keeps_first_50 (w : world) (h : list json) (e : json) :
  history_list (history_file w) = Some h ->
  exists w',
    saveHistory e w = Return tt w' /\
    history_file w' = Doc (JArr (take 50 (e :: h))) /\
    config_file w' = config_file w /\
    head (take 50 (e :: h)) = Some e /\
    length (take 50 (e :: h)) = Nat.min (length h + 1) 50 /\
    (length (take 50 (e :: h)) <= 50)%nat /\
    ((50 <= length h)%nat -> take 50 (e :: h) = e :: take 49 h).
Proof.
  intros H. destruct (loadHistory_list w h H) as (w1 & Hload & Hh & Hc).
  exists (set_history_file (Doc (JArr (take 50 (e :: h)))) w1).
  repeat split.
  - unfold saveHistory, bind, ensureConfigDir, ret. rewrite Hload.
    rewrite unshift_splice. reflexivity.
  - simpl. exact Hc.
  - rewrite length_take. cbn [length]. lia.
  - rewrite length_take. lia.
Qed.

(** Whenever [saveHistory] returns, the file it leaves stands for a list of
    at most 50 entries, so the next [saveHistory] will return too. *)
Theorem saveHistory_leaves_a_bounded_list (w w' : world) (e : json) :
  saveHistory e w = Return tt w' ->
  exists l, history_list (history_file w') = Some l /\ (length l <= 50)%nat.
Proof.
  intros H.
  destruct (history_list (history_file w)) as [h|] eqn:Hh.
  - destruct (saveHistory_keeps_first_50_cases w h e Hh) as (w1 & Hrun & Hfile).
    rewrite -> Hrun in H. injection H as <-.
    exists (take 50 (e :: h)). rewrite Hfile. split; [reflexivity|].
    rewrite length_take. lia.
  - unfold saveHistory, loadHistory in H. revert H. js_red.
    destruct (history_file w) as [| |j]; try discriminate Hh.
    destruct j; try discriminate Hh; discriminate.
Qed.

End HistoryFacts.

(** ** The configuration store *)

Section ConfigFacts.
Context {RT : Runtime}.

Lemma IndexJs_loadConfig_pure (w : world) :
  exists j, IndexJs.loadConfig w = Return j w /\
            (if truthy j then j else JObj ∅) = loaded_config (config_file w).
Proof.
  unfold IndexJs.loadConfig, bind, reads, loaded_config.
  destruct (config_file w); eexists; (split; [reflexivity|]); reflexivity.
Qed.

Lemma service_key_not_services (s : service) : service_key s <> "services".
Proof. destruct s; discriminate. Qed.

Lemma get_put_service_other (config c' : json) (key s' : string) (entry : json) :
  put_service config key entry = Some c' ->
  s' <> key ->
  get_val (get c' "services") s' = get_val (get config "services") s' /\
  (forall k, k <> "services" -> get c' k = get config k).
Proof.
  unfold put_service. intros H Hne.
  destruct config; try discriminate; inversion H; subst; clear H.
  - split; [reflexivity | intros; reflexivity].
  - simpl. split.
    + rewrite lookup_insert_eq. simpl.
      destruct (m !! "services") as [sv|] eqn:E; simpl.
      * destruct (truthy sv) eqn:T.
        -- destruct sv; simpl; try reflexivity.
           rewrite lookup_insert_ne by congruence. reflexivity.
        -- simpl. rewrite lookup_insert_ne by congruence.
           rewrite lookup_empty. destruct sv; simpl in *; try reflexivity; discriminate.
      * rewrite lookup_insert_ne by congruence. apply lookup_empty.
    + intros k Hk. rewrite lookup_insert_ne by congruence. reflexivity.
Qed.

Lemma saveConfig_final (w : world) (s : service) (creds : gmap string json)
    (now : string) :
  config_file (final (IndexJs.saveConfig s creds now w)) = config_file w \/
  (s = GoogleDrive /\
   config_file (final (IndexJs.saveConfig s creds now w)) =
     Doc (assign (loaded_config (config_file w)) "googleDrive"
            (JObj (<["updatedAt" := JStr now]> creds)))) \/
  (s <> GoogleDrive /\ exists c',
     put_service (loaded_config (config_file w)) (service_key s)
       (service_entry (creds !! "apiKey") now) = Some c' /\
     config_file (final (IndexJs.saveConfig s creds now w)) = Doc c').
Proof.
  unfold IndexJs.saveConfig, bind, ensureConfigDir, ret.
  destruct (IndexJs_loadConfig_pure w) as (j & -> & Hj). rewrite Hj.
  destruct s.
  - destruct (put_service _ _ _) as [c'|] eqn:E; simpl.
    + right; right. split; [discriminate|]. exists c'. auto.
    + left. reflexivity.
  - destruct (put_service _ _ _) as [c'|] eqn:E; simpl.
    + right; right. split; [discriminate|]. exists c'. auto.
    + left. reflexivity.
  - right; left. split; [reflexivity|]. reflexivity.
Qed.

Lemma doc_get_loaded (f : file) (k : string) :
  get (loaded_config f) k = doc_get f k.
Proof.
  destruct f as [| |j]; simpl; try apply lookup_empty.
  destruct (truthy j) eqn:T; [reflexivity|].
  simpl. rewrite lookup_empty. destruct j; simpl in *; try reflexivity; discriminate.
Qed.

Lemma get_assign_ne (o v : json) (k k' : string) :
  k' <> k -> get (assign o k v) k' = get o k'.
Proof.
  intros H. destruct o; simpl; try reflexivity.
  rewrite lookup_insert_ne by congruence. reflexivity.
Qed.

Lemma deleteServiceConfig_final (w : world) (s : service) :
  (truthy_val (doc_get2 (config_file w) "services" (service_key s)) = false /\
   config_file (final (IndexJs.deleteServiceConfig s w)) = config_file w) \/
  exists m sv,
    config_file w = Doc (JObj m) /\
    m !! "services" = Some (JObj sv) /\
    truthy_val (sv !! service_key s) = true /\
    config_file (final (IndexJs.deleteServiceConfig s w)) =
      Doc (JObj (<["services" := JObj (delete (service_key s) sv)]> m)).
Proof.
  unfold IndexJs.deleteServiceConfig, IndexJs.loadConfig. js_red.
  unfold doc_get2, doc_get.
  destruct (config_file w) as [| |j] eqn:E; simpl; try (left; split; [reflexivity|exact E]).
  destruct (truthy j && truthy_val (get j "services") &&
            truthy_val (get_val (get j "services") (service_key s))) eqn:C;
    simpl.
  2:{ left. split; [|exact E].
      destruct (truthy_val (get_val (get j "services") (service_key s))) eqn:C3;
        [|reflexivity].
      rewrite andb_true_r in C.
      destruct j as [| | | | |m]; simpl in *; try discriminate.
      destruct (m !! "services") as [sv|]; simpl in *; try discriminate.
      destruct sv; simpl in *; discriminate. }
  apply andb_prop in C as (C & C3). apply andb_prop in C as (C1 & C2).
  destruct j as [| | | | |m]; simpl in *; try discriminate.
  destruct (m !! "services") as [sv|] eqn:Es; simpl in *; try discriminate.
  destruct sv as [| | | | |m0]; simpl in *; try discriminate.
  right. exists m, m0. auto.
Qed.

(** C7.  Each mutation rewrites the whole document and changes one entry of
    it.  After [saveConfig s creds], whether it returns or throws, the entry
    [services[s']] of every other name [s'] is what it was, and so is the
    [googleDrive] section unless [s] is [GoogleDrive].  After
    [deleteServiceConfig s], [services[s']] is what it was for every other
    [s'], every top-level field other than [services] is what it was, a
    truthy [services[s]] is gone, and the document is either the prior one
    or the prior one with [services[s]] deleted. *)
Theorem config_mutations_touch_one_entry (w : world) (s : service)
    (creds : gmap string json) (now s' : string) :
  s' <> service_key s ->
  let saved := config_file (final (IndexJs.saveConfig s creds now w)) in
  let deleted := config_file (final (IndexJs.deleteServiceConfig s w)) in
  doc_get2 saved "services" s' = doc_get2 (config_file w) "services" s' /\
  (s <> GoogleDrive ->
   doc_get saved "googleDrive" = doc_get (config_file w) "googleDrive") /\
  doc_get2 deleted "services" s' = doc_get2 (config_file w) "services" s' /\
  (forall k, k <> "services" -> doc_get deleted k = doc_get (config_file w) k) /\
  (truthy_val (doc_get2 (config_file w) "services" (service_key s)) = true ->
   doc_get2 deleted "services" (service_key s) = None) /\
  (deleted = config_file w \/
   exists m sv,
     config_file w = Doc (JObj m) /\
     m !! "services" = Some (JObj sv) /\
     deleted = Doc (JObj (<["services" := JObj (delete (service_key s) sv)]> m))).
Proof.
  intros Hne saved deleted.
  assert (Hsave :
    doc_get2 saved "services" s' = doc_get2 (config_file w) "services" s' /\
    (s <> GoogleDrive ->
     doc_get saved "googleDrive" = doc_get (config_file w) "googleDrive")).
  { subst saved.
    destruct (saveConfig_final w s creds now) as [-> | [(Hs & ->) | (Hs & c' & Hput & ->)]].
    - split; auto.
    - split; [|congruence]. unfold doc_get2, doc_get.
      rewrite get_assign_ne by discriminate. rewrite doc_get_loaded. reflexivity.
    - destruct (get_put_service_other _ _ _ s' _ Hput Hne) as (H1 & H2).
      unfold doc_get2, doc_get. rewrite H1, doc_get_loaded. split; [reflexivity|].
      intros _. rewrite H2 by discriminate. apply doc_get_loaded. }
  destruct Hsave as (Hs1 & Hs2).
  split; [exact Hs1|]. split; [exact Hs2|].
  subst deleted.
  destruct (deleteServiceConfig_final w s)
    as [(Hf & ->) | (m & sv & Hw & Hm & Ht & ->)].
  - repeat split; auto. rewrite Hf. discriminate.
  - rewrite Hw. unfold doc_get2, doc_get. simpl. split; [|split; [|split]].
    + rewrite lookup_insert_eq, Hm. simpl. apply lookup_delete_ne. congruence.
    + intros k Hk. apply lookup_insert_ne. congruence.
    + intros _. rewrite lookup_insert_eq. simpl. apply lookup_delete_eq.
    + right. exists m, sv. auto.
Qed.

Lemma getServiceCredentials_skips_old_format (w : world) (s : service)
    (now : string) :
  IndexJs.getServiceCredentials s now w =
    Return
      (match s with
       | GoogleDrive => or_null (doc_get (config_file w) "googleDrive")
       | _ => or_null (doc_get2 (config_file w) "services" (service_key s))
       end) w.
Proof.
  unfold IndexJs.getServiceCredentials, IndexJs.loadConfig, doc_get2, doc_get.
  js_red.
  destruct (config_file w) as [| |j]; simpl; try (destruct s; reflexivity).
  destruct (truthy j) eqn:T; simpl.
  2:{ destruct j; simpl in *; try discriminate; destruct s; reflexivity. }
  destruct s; try reflexivity.
  all: destruct (truthy_val (get j "services")) eqn:S; simpl;
    rewrite ?andb_false_r; simpl.
  all: try (destruct (truthy_val (get_val _ _)) eqn:E; [reflexivity|]).
  all: try (destruct (get_val _ _) as [e|]; simpl in *; [rewrite E|]; reflexivity).
  all: destruct j as [| | | | |m]; simpl in *; try reflexivity.
  all: destruct (m !! "services") as [sv|]; simpl in *; try reflexivity.
  all: destruct sv; simpl in *; try discriminate; reflexivity.
Qed.

Lemma getServiceApiKey_result (w : world) (s : service) (now : string) :
  result (Part000.getServiceApiKey s now w) =
    Some (if legacy_format (config_file w) && is_pixeldrain s
          then doc_get (config_file w) "apiKey"
          else IndexJs.apiKey_of
                 (or_null (doc_get2 (config_file w) "services" (service_key s)))).
Proof.
  unfold Part000.getServiceApiKey, Part000.loadConfig, Part000.saveConfig,
    legacy_format, IndexJs.apiKey_of, doc_get2, doc_get.
  js_red.
  destruct (config_file w) as [| |j] eqn:F; simpl; try reflexivity.
  destruct j as [| | | | |m]; simpl; try reflexivity.
  - destruct b; reflexivity.
  - destruct (number_truthy n); reflexivity.
  - destruct (negb (s0 =? "")%string); reflexivity.
  - destruct (truthy_val (m !! "apiKey") && negb (truthy_val (m !! "services"))
              && is_pixeldrain s) eqn:L.
    + unfold Part000.loadConfig. js_red. rewrite F. reflexivity.
    + destruct (m !! "services") as [sv|]; simpl; [|reflexivity].
      destruct (truthy sv) eqn:T; simpl.
      * destruct (get sv (service_key s)) as [e|]; simpl; [|reflexivity].
        destruct (truthy e) eqn:Te; simpl; [rewrite Te|]; reflexivity.
      * destruct sv; simpl in *; try discriminate; reflexivity.
Qed.

(** Outside the old format the two entry points read the same key. *)
Lemma credential_lookup_agrees_on_new_format (w : world) (s : service)
    (now : string) :
  s <> GoogleDrive ->
  legacy_format (config_file w) && is_pixeldrain s = false ->
  result (Part000.getServiceApiKey s now w) =
    IndexJs.apiKey_of <$> result (IndexJs.getServiceCredentials s now w).
Proof.
  intros Hs Hl.
  rewrite getServiceApiKey_result, Hl, getServiceCredentials_skips_old_format.
  destruct s; [reflexivity | reflexivity | congruence].
Qed.

(** C9, evaluated at the stored document [{"apiKey": "KEY"}] of the old
    format: [getServiceApiKey] of the earlier entry point returns the key
    and files it under [services.pixeldrain]; [getServiceCredentials] of
    index.js returns [null], so its caller reads the key [null], and the
    file stays as it was. *)
Theorem legacy_config_lookup_disagrees (now : string) :
  let w := set_config_file (Doc (JObj {[ "apiKey" := JStr "KEY" ]})) fresh_world in
  result (Part000.getServiceApiKey Pixeldrain now w) = Some (Some (JStr "KEY")) /\
  IndexJs.apiKey_of <$> result (IndexJs.getServiceCredentials Pixeldrain now w)
    = Some (Some JNull) /\
  doc_get2 (config_file (final (Part000.getServiceApiKey Pixeldrain now w)))
    "services" "pixeldrain"
    = Some (service_entry (Some (JStr "KEY")) now) /\
  config_file (final (IndexJs.getServiceCredentials Pixeldrain now w))
    = config_file w.
Proof.
  intros w. split; [|split; [|split]].
  - rewrite getServiceApiKey_result. reflexivity.
  - rewrite getServiceCredentials_skips_old_format. reflexivity.
  - vm_compute. reflexivity.
  - rewrite getServiceCredentials_skips_old_format. reflexivity.
Qed.

End ConfigFacts.

(** ** Base64 and Basic credentials *)

Section Base64Facts.
Local Open Scope nat_scope.

Example base64_Man : base64 "Man" = "TWFu".
Proof. reflexivity. Qed.

Example base64_Ma : base64 "Ma" = "TWE=".
Proof. reflexivity. Qed.

Example base64_M : base64 "M" = "TQ==".
Proof. reflexivity. Qed.

Local Open Scope nat_scope.

Lemma base64_char_index (n : nat) :
  n < 64 ->
  base64_index (base64_char n) = Some n /\ Ascii.eqb (base64_char n) "=" = false.
Proof.
  intros H.
  do 64 (destruct n as [|n]; [split; reflexivity|]).
  lia.
Qed.

Lemma string_ind3 (P : string -> Prop) :
  P "" ->
  (forall a, P (String a "")) ->
  (forall a b, P (String a (String b ""))) ->
  (forall a b c r, P r -> P (String a (String b (String c r)))) ->
  forall s, P s.
Proof.
  intros H0 H1 H2 H3.
  assert (H : forall s, P s /\ (forall a, P (String a s)) /\
                        (forall a b, P (String a (String b s)))).
  { induction s as [|c s (IH0 & IH1 & IH2)].
    - auto.
    - repeat split; auto. }
  intros s. apply H.
Qed.

Lemma base64_decode_group (c1 c2 c3 c4 : ascii) (rest : string) :
  base64_decode (String c1 (String c2 (String c3 (String c4 rest)))) =
  match base64_index c1, base64_index c2 with
  | Some n1, Some n2 =>
      let a := ascii_of_nat (n1 * 4 + n2 / 16) in
      if Ascii.eqb c4 "=" then
        match rest with
        | EmptyString =>
            if Ascii.eqb c3 "=" then Some (String a "")
            else
              match base64_index c3 with
              | Some n3 =>
                  Some (String a
                          (String (ascii_of_nat (n2 mod 16 * 16 + n3 / 4)) ""))
              | None => None
              end
        | String _ _ => None
        end
      else
        match base64_index c3, base64_index c4, base64_decode rest with
        | Some n3, Some n4, Some t =>
            Some (String a
                    (String (ascii_of_nat (n2 mod 16 * 16 + n3 / 4))
                       (String (ascii_of_nat (n3 mod 4 * 64 + n4)) t)))
        | _, _, _ => None
        end
  | _, _ => None
  end.
Proof. reflexivity. Qed.

Ltac div_lia := zify; Z.to_euclidean_division_equations; lia.

Lemma byte_of_sextets (a : ascii) (n : nat) :
  n = nat_of_ascii a -> ascii_of_nat n = a.
Proof. intros ->. apply ascii_nat_embedding. Qed.

Ltac sextet n :=
  let H := fresh in
  destruct (base64_char_index n) as (-> & H); [div_lia | try rewrite H; clear H].

(** Decoding undoes [base64]. *)
Theorem base64_decode_encode (s : string) :
  base64_decode (base64 s) = Some s.
Proof.
  induction s as [|a|a b|a b c r IH] using string_ind3.
  - reflexivity.
  - change (base64 (String a "")) with
      (String (base64_char (nat_of_ascii a / 4))
         (String (base64_char (nat_of_ascii a mod 4 * 16)) "==")).
    pose proof (nat_ascii_bounded a) as Ha.
    rewrite base64_decode_group.
    sextet (nat_of_ascii a / 4). sextet (nat_of_ascii a mod 4 * 16).
    cbv zeta. change (Ascii.eqb "=" "=") with true. cbv iota.
    f_equal. f_equal. apply byte_of_sextets. div_lia.
  - change (base64 (String a (String b ""))) with
      (String (base64_char (nat_of_ascii a / 4))
        (String (base64_char (nat_of_ascii a mod 4 * 16 + nat_of_ascii b / 16))
           (String (base64_char (nat_of_ascii b mod 16 * 4)) "="))).
    pose proof (nat_ascii_bounded a) as Ha.
    pose proof (nat_ascii_bounded b) as Hb.
    rewrite base64_decode_group.
    sextet (nat_of_ascii a / 4).
    sextet (nat_of_ascii a mod 4 * 16 + nat_of_ascii b / 16).
    sextet (nat_of_ascii b mod 16 * 4).
    cbv zeta. change (Ascii.eqb "=" "=") with true. cbv iota.
    f_equal. f_equal; [|f_equal]; apply byte_of_sextets; div_lia.
  - change (base64 (String a (String b (String c r)))) with
      (String (base64_char (nat_of_ascii a / 4))
        (String (base64_char (nat_of_ascii a mod 4 * 16 + nat_of_ascii b / 16))
           (String (base64_char (nat_of_ascii b mod 16 * 4 + nat_of_ascii c / 64))
              (String (base64_char (nat_of_ascii c mod 64)) (base64 r))))).
    pose proof (nat_ascii_bounded a) as Ha.
    pose proof (nat_ascii_bounded b) as Hb.
    pose proof (nat_ascii_bounded c) as Hc.
    rewrite base64_decode_group, IH.
    sextet (nat_of_ascii a / 4).
    sextet (nat_of_ascii a mod 4 * 16 + nat_of_ascii b / 16).
    sextet (nat_of_ascii b mod 16 * 4 + nat_of_ascii c / 64).
    sextet (nat_of_ascii c mod 64).
    cbv zeta. cbv iota.
    f_equal. f_equal; [|f_equal; [|f_equal]]; apply byte_of_sextets; div_lia.
Qed.

Lemma split_colon_leading (k : string) : split_colon (":" ++ k) = Some ("", k).
Proof. reflexivity. Qed.

Lemma basic_credentials_empty_user (k : string) :
  basic_credentials ("Basic " ++ base64 (":" ++ k)) = Some ("", k).
Proof.
  change ("Basic " ++ base64 (":" ++ k))%string with
    (String "B" (String "a" (String "s" (String "i" (String "c"
       (String " " (base64 (":" ++ k)))))))).
  unfold basic_credentials. rewrite base64_decode_encode. reflexivity.
Qed.

End Base64Facts.

(** ** The progress callback *)

Section ProgressFacts.
Context {RT : Runtime}.

Lemma onUploadProgress_sampled (tr : tracker) (ev : progressEvent)
    (t currentTime : float) :
  total ev = Some t ->
  float_truthy t = true ->
  (0 <? (currentTime - lastTime tr) / 1000)%float = true ->
  onUploadProgress tr ev currentTime =
    (Tracker (loaded ev) currentTime,
     Some (compute_sample tr (loaded ev) t currentTime)).
Proof.
  intros Ht Hk Hd. unfold onUploadProgress. rewrite Ht, Hk.
  cbn [timeDiff compute_sample]. rewrite Hd. reflexivity.
Qed.

(** C2.  At a sample whose [total] is known (truthy) and whose time since
    the previous sample is positive, the callback computes
    [speedBps = (loaded - lastLoaded) / timeDiff] with [timeDiff] in
    seconds, and [etaSeconds = round((total - loaded) / speedBps)]; the
    tracked pair becomes [(loaded, currentTime)], also in the state of the
    upload process, so that the next such sample is computed against this
    one. *)
Theorem progress_sample_relative_to_previous (w : world) (p : pending)
    (ev : progressEvent) (t currentTime : float) :
  total ev = Some t ->
  float_truthy t = true ->
  (0 <? (currentTime - lastTime (p_tracker p)) / 1000)%float = true ->
  exists s,
    onUploadProgress (p_tracker p) ev currentTime
      = (Tracker (loaded ev) currentTime, Some s) /\
    timeDiff s = ((currentTime - lastTime (p_tracker p)) / 1000)%float /\
    speedBps s = ((loaded ev - lastLoaded (p_tracker p)) / timeDiff s)%float /\
    etaSeconds s = Math_round ((t - loaded ev) / speedBps s)%float /\
    (exists w',
       step (Process w (Awaiting p)) (Progress ev currentTime)
       = Process w'
           (Awaiting (Pending (p_service p) (p_fileName p) (p_fileSize p)
                        (Tracker (loaded ev) currentTime)))) /\
    (forall ev2 t2 time2,
       total ev2 = Some t2 ->
       float_truthy t2 = true ->
       (0 <? (time2 - currentTime) / 1000)%float = true ->
       exists s2,
         onUploadProgress (Tracker (loaded ev) currentTime) ev2 time2
           = (Tracker (loaded ev2) time2, Some s2) /\
         speedBps s2
           = ((loaded ev2 - loaded ev) / ((time2 - currentTime) / 1000))%float).
Proof.
  intros Ht Hk Hd.
  exists (compute_sample (p_tracker p) (loaded ev) t currentTime).
  pose proof (onUploadProgress_sampled _ _ _ _ Ht Hk Hd) as Hs.
  split; [exact Hs|]. repeat (split; [reflexivity|]). split.
  - unfold step. cbn [status_of world_of]. rewrite Hs. eexists. reflexivity.
  - intros ev2 t2 time2 Ht2 Hk2 Hd2.
    eexists. split.
    + apply (onUploadProgress_sampled (Tracker (loaded ev) currentTime));
        [exact Ht2 | exact Hk2 | exact Hd2].
    + reflexivity.
Qed.

(** C8, evaluated at a sample within its conditions, with no byte sent
    since the previous sample ([lastLoaded = loaded = 1000], [total = 2000],
    one second later): the speed is 0, [etaSeconds] and [etaMin] are
    infinite and [etaSec] is NaN, which is neither [>= 0] nor [< 60]. *)
Theorem stalled_sample_has_no_eta :
  let tr := Tracker 1000 0 in
  let ev := ProgressEvent 1000 (Some 2000%float) in
  exists s,
    onUploadProgress tr ev 1000 = (Tracker 1000 1000, Some s) /\
    (lastLoaded tr <=? loaded ev)%float = true /\
    (loaded ev <=? 2000)%float = true /\
    (0 <? timeDiff s)%float = true /\
    speedBps s = 0%float /\
    etaSeconds s = infinity /\
    etaMin s = infinity /\
    etaSec s = nan /\
    (0 <=? etaSec s)%float = false /\
    (etaSec s <? 60)%float = false.
Proof.
  eexists. split; [reflexivity|]. repeat split; reflexivity.
Qed.

End ProgressFacts.

(** ** The uploads *)

Section UploadFacts.
Context {RT : Runtime}.

Lemma said_more_refl (w : world) : said_more w w.
Proof. repeat split. Qed.

Lemma upload_catch_exits {A : Type} (e : error) (w : world) :
  exists w', said_more w w' /\
    (@upload_catch RT A e w = Exit 1 w' \/ @upload_catch RT A e w = Throw TypeError w').
Proof.
  unfold upload_catch. js_red.
  destruct e as [|status data statusText| |msg].
  - eexists. split; [|left; reflexivity]. repeat split.
  - destruct ((status =? 401) || (status =? 403)).
    + eexists. split; [|left; reflexivity]. repeat split.
    + destruct (to_string_val _) as [text|].
      * eexists. split; [|left; reflexivity]. repeat split.
      * eexists. split; [|right; reflexivity]. repeat split.
  - eexists. split; [|left; reflexivity]. repeat split.
  - eexists. split; [|left; reflexivity]. repeat split.
Qed.

Lemma prepare_cases (svc : upload_service) (filePath : string) (w : world) :
  match local_files w !! filePath with
  | None => exists w', said_more w w' /\ prepare svc filePath w = Exit 1 w'
  | Some size =>
      exists w', said_more w w' /\
        prepare svc filePath w
        = Return (path_basename filePath, formatFileSize size) w'
  end.
Proof.
  unfold prepare. js_red.
  destruct (local_files w !! filePath);
    (eexists; split; [|reflexivity]; repeat split).
Qed.

(** How an upload function reaches its [await], or fails to. *)
Lemma uploadToPixeldrain_begin (filePath : string) (apiKey : option json)
    (startTime : float) (w : world) :
  match local_files w !! filePath, to_string_val apiKey with
  | Some size, Some k =>
      exists w',
        uploadToPixeldrain filePath apiKey startTime w
        = Return (Pending ToPixeldrain (path_basename filePath)
                    (formatFileSize size) (Tracker 0 startTime)) w' /\
        in_flight w w'
          (Request PIXELDRAIN_UPLOAD_URL (Some ("Basic " ++ base64 (":" ++ k)))
             (path_basename filePath) (Some "application/octet-stream"))
  | _, _ =>
      exists w' code,
        uploadToPixeldrain filePath apiKey startTime w = Exit code w' /\
        code = 1 /\ said_more w w'
  end.
Proof.
  unfold uploadToPixeldrain, pixeldrain_authorization, send, upload_catch.
  js_red.
  pose proof (prepare_cases ToPixeldrain filePath w) as Hp.
  destruct (local_files w !! filePath) as [size|].
  - destruct Hp as (w1 & Hw1 & ->).
    destruct Hw1 as (? & ? & ? & ? & ? & ? & ?).
    destruct (to_string_val apiKey) as [k|].
    + eexists. split; [reflexivity|]. repeat split; simpl; congruence.
    + do 2 eexists. split; [reflexivity|]. repeat split; simpl; congruence.
  - destruct Hp as (w1 & Hw1 & ->).
    destruct (to_string_val apiKey); do 2 eexists; (split; [reflexivity|]);
      (split; [reflexivity|]); exact Hw1.
Qed.

Lemma uploadToGofile_begin (filePath : string) (token : option json)
    (startTime : float) (w : world) :
  match local_files w !! filePath, gofile_authorization token with
  | Some size, Some authorization =>
      exists w',
        uploadToGofile filePath token startTime w
        = Return (Pending ToGofile (path_basename filePath)
                    (formatFileSize size) (Tracker 0 startTime)) w' /\
        in_flight w w'
          (Request "https://upload.gofile.io/uploadfile" authorization
             (path_basename filePath) None)
  | _, _ =>
      exists w' code,
        uploadToGofile filePath token startTime w = Exit code w' /\
        code = 1 /\ said_more w w'
  end.
Proof.
  unfold uploadToGofile, send, upload_catch.
  js_red.
  pose proof (prepare_cases ToGofile filePath w) as Hp.
  destruct (local_files w !! filePath) as [size|].
  - destruct Hp as (w1 & Hw1 & ->).
    destruct Hw1 as (? & ? & ? & ? & ? & ? & ?).
    destruct (gofile_authorization token) as [k|].
    + eexists. split; [reflexivity|]. repeat split; simpl; congruence.
    + do 2 eexists. split; [reflexivity|]. repeat split; simpl; congruence.
  - destruct Hp as (w1 & Hw1 & ->).
    destruct (gofile_authorization token); do 2 eexists; (split; [reflexivity|]);
      (split; [reflexivity|]); exact Hw1.
Qed.


Lemma saveHistory_cases (entry : json) (w : world) :
  match history_list (history_file w) with
  | Some h =>
      exists w', saveHistory entry w = Return tt w' /\
        history_file w' = Doc (JArr (take 50 (entry :: h))) /\
        history_written w w'
  | None => saveHistory entry w = Throw TypeError w
  end.
Proof.
  unfold saveHistory, loadHistory. js_red.
  destruct (history_file w) as [| |j]; cbn [history_list].
  - eexists. split; [reflexivity|]. split; [reflexivity|]. repeat split.
  - eexists. split; [reflexivity|]. split; [reflexivity|]. repeat split.
  - destruct j as [| | | |l|]; try reflexivity.
    rewrite unshift_splice.
    eexists. split; [reflexivity|]. split; [reflexivity|repeat split].
Qed.

Lemma catch_after_response (e : error) (w w1 : world) :
  responded w w1 -> history_file w1 = history_file w ->
  failed_before_history (upload_catch e w1) w.
Proof.
  intros (? & ? & ? & ? & ?) Hh.
  destruct (@upload_catch_exits unit e w1)
    as (w2 & (? & ? & ? & ? & ? & ? & ?) & [-> | ->]); [left|right];
    exists w2; (split; [reflexivity|]); (split; [|congruence]);
    repeat split; congruence.
Qed.

Lemma removed_listener_responded (w : world) (m : message) :
  responded w (set_console (m :: console (remove_listener w)) (remove_listener w)).
Proof. repeat split. Qed.

Lemma pixeldrain_response (p : pending) (data : json) (timestamp : string)
    (clipboard_works : bool) (w : world) :
  p_service p = ToPixeldrain ->
  match member (Some data) "id" with
  | Some fileId =>
      match to_string_val fileId, history_list (history_file w) with
      | Some id, Some h =>
          exists w',
            upload_done p data timestamp clipboard_works w = Return tt w' /\
            responded w w' /\
            history_file w' =
              Doc (JArr (take 50
                (historyEntry "pixeldrain" timestamp (p_fileName p) (p_fileSize p)
                   fileId (Some (JStr ("https://pixeldrain.com/u/" ++ id)))
                 :: h)))
      | _, _ =>
          failed_before_history
            (upload_done p data timestamp clipboard_works w) w
      end
  | None =>
      failed_before_history (upload_done p data timestamp clipboard_works w) w
  end.
Proof.
  intros Hsvc. unfold upload_done, pixeldrain_done. rewrite Hsvc. js_red.
  destruct (member (Some data) "id") as [fileId|];
    [|apply catch_after_response; [apply removed_listener_responded|reflexivity]].
  destruct (to_string_val fileId) as [id|].
  2:{ destruct (history_list (history_file w));
        (apply catch_after_response; [apply removed_listener_responded|reflexivity]). }
  set (w1 := set_console _ (remove_listener w)).
  set (entry := historyEntry _ _ _ _ _ _).
  pose proof (saveHistory_cases entry w1) as Hs.
  change (history_file w1) with (history_file w) in Hs.
  destruct (history_list (history_file w)) as [h|].
  - destruct Hs as (w2 & -> & Hh & (? & ? & ? & ? & ? & ?)).
    subst w1; simpl in *.
    unfold copy_link. destruct clipboard_works; js_red;
      (eexists; split; [reflexivity|]; split; [|exact Hh]);
      repeat split; simpl; congruence.
  - rewrite Hs. apply catch_after_response;
      [apply removed_listener_responded|reflexivity].
Qed.

Lemma gofile_response (p : pending) (data : json) (timestamp : string)
    (clipboard_works : bool) (w : world) :
  p_service p = ToGofile ->
  match member (Some data) "data" with
  | Some inner =>
      match member inner "fileId", member inner "downloadPage",
            history_list (history_file w) with
      | Some fileId, Some downloadLink, Some h =>
          exists w',
            final (upload_done p data timestamp clipboard_works w) = w' /\
            (is_Some (to_string_val downloadLink) ->
             upload_done p data timestamp clipboard_works w = Return tt w') /\
            (result (upload_done p data timestamp clipboard_works w) = Some tt ->
             is_Some (to_string_val downloadLink)) /\
            responded w w' /\
            history_file w' =
              Doc (JArr (take 50
                (historyEntry "gofile" timestamp (p_fileName p) (p_fileSize p)
                   fileId downloadLink
                 :: h)))
      | _, _, _ =>
          failed_before_history
            (upload_done p data timestamp clipboard_works w) w
      end
  | None =>
      failed_before_history (upload_done p data timestamp clipboard_works w) w
  end.
Proof.
  intros Hsvc. unfold upload_done, gofile_done. rewrite Hsvc. js_red.
  destruct (member (Some data) "data") as [inner|];
    [|apply catch_after_response; [apply removed_listener_responded|reflexivity]].
  destruct (member inner "fileId") as [fileId|].
  2:{ apply catch_after_response;
        [apply removed_listener_responded|reflexivity]. }
  destruct (member inner "downloadPage") as [downloadLink|];
    [|apply catch_after_response; [apply removed_listener_responded|reflexivity]].
  set (w1 := set_console _ (remove_listener w)).
  set (entry := historyEntry _ _ _ _ _ _).
  pose proof (saveHistory_cases entry w1) as Hs.
  change (history_file w1) with (history_file w) in Hs.
  destruct (history_list (history_file w)) as [h|].
  - destruct Hs as (w2 & -> & Hh & (? & ? & ? & ? & ? & ?)).
    subst w1; simpl in *.
    destruct (to_string_val downloadLink) as [shown|].
    + unfold copy_link.
      destruct downloadLink as [[]|]; try destruct clipboard_works; js_red;
        (eexists; split; [reflexivity|]; split; [reflexivity|];
         split; [intros _; eexists; reflexivity|];
         split; [|exact Hh]);
        repeat split; simpl; congruence.
    + destruct (@upload_catch_exits unit TypeError w2)
        as (w3 & (? & ? & ? & ? & ? & ? & ?) & [-> | ->]);
        (exists w3; split; [reflexivity|];
         split; [intros []; discriminate|];
         split; [discriminate|];
         split; [|congruence]);
        repeat split; simpl; congruence.
  - rewrite Hs. apply catch_after_response;
      [apply removed_listener_responded|reflexivity].
Qed.

Lemma historyEntry_fields (service timestamp filename fileSize : string)
    (fileId downloadLink : option json) :
  let entry :=
    historyEntry service timestamp filename fileSize fileId downloadLink in
  get entry "service" = Some (JStr service) /\
  get entry "fileId" = fileId /\
  get entry "downloadLink" = downloadLink.
Proof.
  unfold historyEntry, with_field; destruct fileId, downloadLink; simpl;
    repeat split; simplify_map_eq; reflexivity.
Qed.

Lemma member_present (data : json) (k : string) :
  data <> JNull -> member (Some data) k = Some (get data k).
Proof. destruct data; simpl; congruence. Qed.

(** C3.  On a response, with a history file that stands for the list [h]:
    the Pixeldrain adapter takes [fileId] from the field [id] of the
    response and builds [downloadLink] as ["https://pixeldrain.com/u/"]
    followed by [String(fileId)] (the [id] itself when it is a string); the
    Gofile adapter takes [fileId] from [data.fileId] and [downloadLink] from
    [data.downloadPage]; in both cases the entry put in front of the stored
    history carries exactly this pair. *)
Theorem adapters_record_common_pair (w : world) (p : pending) (data : json)
    (timestamp : string) (clipboard_works : bool) (h : list json) :
  history_list (history_file w) = Some h ->
  let w' := world_of (step (Process w (Awaiting p))
                        (Resolved data timestamp clipboard_works)) in
  match p_service p with
  | ToPixeldrain =>
      forall id : string,
        data <> JNull ->
        to_string_val (get data "id") = Some id ->
        exists entry,
          history_file w' = Doc (JArr (take 50 (entry :: h))) /\
          get entry "service" = Some (JStr "pixeldrain") /\
          get entry "fileId" = get data "id" /\
          get entry "downloadLink"
            = Some (JStr ("https://pixeldrain.com/u/" ++ id))
  | ToGofile =>
      forall inner : json,
        get data "data" = Some inner ->
        inner <> JNull ->
        exists entry,
          history_file w' = Doc (JArr (take 50 (entry :: h))) /\
          get entry "service" = Some (JStr "gofile") /\
          get entry "fileId" = get inner "fileId" /\
          get entry "downloadLink" = get inner "downloadPage"
  end.
Proof.
  intros Hh w'. subst w'. unfold step. cbn [status_of world_of].
  destruct (p_service p) eqn:Hsvc.
  - intros id Hdata Hid.
    pose proof (pixeldrain_response p data timestamp clipboard_works w Hsvc) as H.
    rewrite (member_present _ _ Hdata), Hid, Hh in H.
    destruct H as (w1 & -> & _ & Hw1).
    eexists. split; [exact Hw1|]. apply historyEntry_fields.
  - intros inner Hinner Hnn.
    pose proof (gofile_response p data timestamp clipboard_works w Hsvc) as H.
    assert (Hdata : data <> JNull) by (intros ->; discriminate).
    rewrite (member_present _ _ Hdata), Hinner in H.
    rewrite !(member_present _ _ Hnn), Hh in H.
    destruct H as (w1 & Hf & _ & _ & _ & Hw1).
    assert (Hw : world_of (settled (upload_done p data timestamp clipboard_works w))
                 = w1).
    { rewrite <- Hf. destruct (upload_done _ _ _ _ _); reflexivity. }
    rewrite Hw. eexists. split; [exact Hw1|]. apply historyEntry_fields.
Qed.

(** C4.  For an API key string [k] and an existing file, the request that
    [uploadToPixeldrain] hands to axios carries the Authorization header
    ["Basic " ++ base64 (":" ++ k)], which a server decodes to the empty
    user-id and the password [k]. *)
Theorem pixeldrain_request_uses_basic_auth (w : world) (filePath k : string)
    (startTime : float) (size : N) :
  local_files w !! filePath = Some size ->
  exists p w' r,
    uploadToPixeldrain filePath (Some (JStr k)) startTime w = Return p w' /\
    sent w' = r :: sent w /\
    req_url r = PIXELDRAIN_UPLOAD_URL /\
    req_authorization r = Some ("Basic " ++ base64 (":" ++ k)) /\
    basic_credentials ("Basic " ++ base64 (":" ++ k)) = Some ("", k).
Proof.
  intros Hf.
  pose proof (uploadToPixeldrain_begin filePath (Some (JStr k)) startTime w) as H.
  rewrite Hf in H. cbn [to_string_val to_string] in H.
  destruct H as (w' & Hrun & (_ & _ & _ & _ & _ & Hsent & _)).
  do 3 eexists. split; [exact Hrun|]. split; [exact Hsent|].
  split; [reflexivity|]. split; [reflexivity|].
  apply basic_credentials_empty_user.
Qed.

Lemma upload_begin_keeps_history (filePath : string) (credential : option json)
    (startTime : float) (w : world) :
  history_file (final (uploadToPixeldrain filePath credential startTime w))
    = history_file w /\
  history_file (final (uploadToGofile filePath credential startTime w))
    = history_file w.
Proof.
  split.
  - pose proof (uploadToPixeldrain_begin filePath credential startTime w) as H.
    destruct (local_files w !! filePath); [destruct (to_string_val credential)|].
    + destruct H as (w' & -> & (_ & Hh & _)). exact Hh.
    + destruct H as (w' & c & -> & _ & (_ & Hh & _)). exact Hh.
    + destruct H as (w' & c & -> & _ & (_ & Hh & _)). exact Hh.
  - pose proof (uploadToGofile_begin filePath credential startTime w) as H.
    destruct (local_files w !! filePath); [destruct (gofile_authorization credential)|].
    + destruct H as (w' & -> & (_ & Hh & _)). exact Hh.
    + destruct H as (w' & c & -> & _ & (_ & Hh & _)). exact Hh.
    + destruct H as (w' & c & -> & _ & (_ & Hh & _)). exact Hh.
Qed.

Lemma rejected_keeps_history (w : world) (p : pending) (err : error) :
  let pr := step (Process w (Awaiting p)) (Rejected err) in
  history_file (world_of pr) = history_file w /\
  (status_of pr = Exited 1 \/ status_of pr = Crashed TypeError).
Proof.
  unfold step. cbn [status_of world_of].
  destruct (@upload_catch_exits unit err w)
    as (w' & (_ & Hh & _) & [-> | ->]); (split; [exact Hh|]); auto.
Qed.

Lemma sigint_keeps_history (pr : process) :
  history_file (world_of (deliver_sigint pr)) = history_file (world_of pr).
Proof.
  unfold deliver_sigint. destruct (sigint_listeners (world_of pr)) as [|[] l];
    reflexivity.
Qed.

Lemma report_keeps_files (smp : option sample) (w : world) :
  said_more w (report smp w).
Proof. destruct smp; repeat split. Qed.

Lemma failed_not_finished (o : outcome unit) (w : world) :
  failed_before_history o w ->
  status_of (settled o) <> Finished /\
  history_file (world_of (settled o)) = history_file w.
Proof.
  intros [(w' & -> & _ & Hh) | (w' & -> & _ & Hh)]; split;
    try discriminate; exact Hh.
Qed.

(** C10.  The history is written after a successful response and nowhere
    else.  Nothing an upload function does before its request touches the
    history file; a rejected request (HTTP error, network error or anything
    else) leaves the file as it was and ends the process; no event other
    than a response changes the file; when the upload function finishes
    normally after a response, the file holds the prior list with one entry
    put in front (cut to 50); and it does finish so for Pixeldrain whenever
    the history file stands for a list and the response has an [id] that
    can be read. *)
Theorem history_entry_iff_upload_succeeds (w : world) (p : pending)
    (filePath : string) (credential : option json) (startTime : float) :
  history_file (final (uploadToPixeldrain filePath credential startTime w))
    = history_file w /\
  history_file (final (uploadToGofile filePath credential startTime w))
    = history_file w /\
  (forall err,
     let pr := step (Process w (Awaiting p)) (Rejected err) in
     history_file (world_of pr) = history_file w /\
     (status_of pr = Exited 1 \/ status_of pr = Crashed TypeError)) /\
  (forall e,
     history_file (world_of (step (Process w (Awaiting p)) e)) <> history_file w ->
     exists data timestamp clipboard_works,
       e = Resolved data timestamp clipboard_works) /\
  (forall data timestamp clipboard_works,
     let pr := step (Process w (Awaiting p))
                 (Resolved data timestamp clipboard_works) in
     status_of pr = Finished ->
     exists entry h,
       history_list (history_file w) = Some h /\
       history_file (world_of pr) = Doc (JArr (take 50 (entry :: h)))) /\
  (forall data timestamp clipboard_works h id,
     let pr := step (Process w (Awaiting p))
                 (Resolved data timestamp clipboard_works) in
     p_service p = ToPixeldrain ->
     history_list (history_file w) = Some h ->
     data <> JNull ->
     to_string_val (get data "id") = Some id ->
     status_of pr = Finished /\
     exists entry,
       history_file (world_of pr) = Doc (JArr (take 50 (entry :: h)))).
Proof.
  destruct (upload_begin_keeps_history filePath credential startTime w)
    as (Hp & Hg).
  split; [exact Hp|]. split; [exact Hg|].
  split; [intros err; apply rejected_keeps_history|].
  assert (Hok : forall data timestamp clipboard_works h id,
     let pr := step (Process w (Awaiting p))
                 (Resolved data timestamp clipboard_works) in
     p_service p = ToPixeldrain ->
     history_list (history_file w) = Some h ->
     data <> JNull ->
     to_string_val (get data "id") = Some id ->
     status_of pr = Finished /\
     exists entry,
       history_file (world_of pr) = Doc (JArr (take 50 (entry :: h)))).
  { intros data ts c h id pr Hsvc Hh Hdata Hid. subst pr. unfold step.
    cbn [status_of world_of].
    pose proof (pixeldrain_response p data ts c w Hsvc) as H.
    rewrite (member_present _ _ Hdata), Hid, Hh in H.
    destruct H as (w1 & -> & _ & Hw1). split; [reflexivity|].
    eexists. exact Hw1. }
  split; [|split; [|exact Hok]].
  - intros e Hne. destruct e as [ev t| |data ts c|err].
    + exfalso. apply Hne. unfold step. cbn [status_of world_of].
      destruct (onUploadProgress _ _ _) as [tr smp]. cbn [world_of].
      apply (report_keeps_files smp w).
    + exfalso. apply Hne. apply (sigint_keeps_history (Process w (Awaiting p))).
    + eauto.
    + exfalso. apply Hne. apply rejected_keeps_history.
  - intros data ts c pr Hfin. subst pr. unfold step in *.
    cbn [status_of world_of] in *.
    destruct (p_service p) eqn:Hsvc.
    + pose proof (pixeldrain_response p data ts c w Hsvc) as H.
      destruct (member (Some data) "id") as [fileId|];
        [|apply failed_not_finished in H; tauto].
      destruct (to_string_val fileId) as [id|];
        [|apply failed_not_finished in H; tauto].
      destruct (history_list (history_file w)) as [h|];
        [|apply failed_not_finished in H; tauto].
      destruct H as (w' & -> & _ & Hw'). eauto.
    + pose proof (gofile_response p data ts c w Hsvc) as H.
      destruct (member (Some data) "data") as [inner|];
        [|apply failed_not_finished in H; tauto].
      destruct (member inner "fileId") as [fileId|];
        [|apply failed_not_finished in H; tauto].
      destruct (member inner "downloadPage") as [downloadLink|];
        [|apply failed_not_finished in H; tauto].
      destruct (history_list (history_file w)) as [h|];
        [|apply failed_not_finished in H; tauto].
      destruct H as (w' & Hf & _ & _ & _ & Hw').
      do 2 eexists. split; [reflexivity|]. rewrite <- Hw', <- Hf.
      destruct (upload_done _ _ _ _ _); reflexivity.
Qed.

Lemma said_more_trans (w1 w2 w3 : world) :
  said_more w1 w2 -> said_more w2 w3 -> said_more w1 w3.
Proof.
  intros (? & ? & ? & ? & ? & ? & ?) (? & ? & ? & ? & ? & ? & ?).
  repeat split; congruence.
Qed.

Lemma run_progress (samples : list (progressEvent * float)) (w : world)
    (p : pending) :
  exists w' p',
    run (Process w (Awaiting p)) (progress_events samples)
    = Process w' (Awaiting p') /\
    said_more w w'.
Proof.
  revert w p. induction samples as [|[ev t] samples IH]; intros w p.
  - exists w, p. split; [reflexivity|apply said_more_refl].
  - unfold run, progress_events. cbn [map fold_left fst snd].
    unfold step at 2. cbn [status_of world_of].
    destruct (onUploadProgress (p_tracker p) ev t) as [tr smp].
    destruct (IH (report smp w) (Pending (p_service p) (p_fileName p) (p_fileSize p) tr))
      as (w' & p' & Hrun & Hw').
    exists w', p'. split; [exact Hrun|].
    eapply said_more_trans; [apply report_keeps_files|exact Hw'].
Qed.

Lemma run_exited (events : list event) (w : world) (code : Z) :
  run (Process w (Exited code)) events = Process w (Exited code).
Proof. induction events as [|e events IH]; [reflexivity|exact IH]. Qed.

(** C6.  Once [uploadToPixeldrain] has sent its request, and after any
    number of progress samples, SIGINT runs [handleCancel]: the request is
    aborted and the process exits with status 0, the history file is the
    one from before the upload, no other request was sent, and no later
    event changes anything.  After a response the listener is gone: when
    the upload finished normally, a later SIGINT ends the process by
    default, without running [handleCancel] ([aborted] stays false). *)
Theorem sigint_cancels_only_while_in_flight (w0 w1 : world) (filePath : string)
    (apiKey : option json) (startTime : float) (p : pending)
    (samples : list (progressEvent * float)) :
  sigint_listeners w0 = [] ->
  aborted w0 = false ->
  uploadToPixeldrain filePath apiKey startTime w0 = Return p w1 ->
  let pr := run (Process w1 (Awaiting p)) (progress_events samples) in
  (exists w2,
     step pr Sigint = Process w2 (Exited 0) /\
     aborted w2 = true /\
     history_file w2 = history_file w0 /\
     sent w2 = sent w1 /\
     forall later, run (Process w2 (Exited 0)) later = Process w2 (Exited 0)) /\
  (forall data timestamp clipboard_works,
     let done := step pr (Resolved data timestamp clipboard_works) in
     sigint_listeners (world_of done) = [] /\
     (status_of done = Finished ->
      step done Sigint = Process (world_of done) Killed /\
      aborted (world_of done) = false)).
Proof.
  intros Hl Ha Hrun pr.
  pose proof (uploadToPixeldrain_begin filePath apiKey startTime w0) as Hb.
  destruct (local_files w0 !! filePath) as [size|];
    [destruct (to_string_val apiKey) as [k|]|];
    try (destruct Hb as (? & ? & Hb & _); congruence).
  destruct Hb as (w1' & Hb & (Hc1 & Hh1 & Hf1 & Hl1 & Ha1 & Hs1 & Hcl1)).
  rewrite Hrun in Hb. inversion Hb; subst w1'. clear Hb.
  rewrite Hl in Hl1. cbn [app] in Hl1.
  destruct (run_progress samples w1 p)
    as (w' & p' & Hpr & (Hc & Hh & Hf & Hl' & Ha' & Hs & Hcl)).
  subst pr. rewrite Hpr. split.
  - eexists. unfold step, deliver_sigint. cbn [status_of world_of].
    rewrite Hl', Hl1. unfold handleCancel. js_red.
    split; [reflexivity|]. cbn. repeat split; try congruence.
    intros later. apply run_exited.
  - intros data ts c. cbv zeta.
    set (done := step (Process w' (Awaiting p')) (Resolved data ts c)).
    assert (Hresp : responded w' (world_of done)).
    { subst done. unfold step. cbn [status_of world_of].
      destruct (p_service p') eqn:Hsvc.
      - pose proof (pixeldrain_response p' data ts c w' Hsvc) as H.
        destruct (member (Some data) "id") as [fileId|];
          [destruct (to_string_val fileId);
           [destruct (history_list (history_file w'))|]|].
        all: try (destruct H as [(? & -> & H & _) | (? & -> & H & _)]; exact H).
        destruct H as (? & -> & H & _). exact H.
      - pose proof (gofile_response p' data ts c w' Hsvc) as H.
        destruct (member (Some data) "data") as [inner|];
          [destruct (member inner "fileId");
           [destruct (member inner "downloadPage");
            [destruct (history_list (history_file w'))|]|]|].
        all: try (destruct H as [(? & -> & H & _) | (? & -> & H & _)]; exact H).
        destruct H as (? & Hfin & _ & _ & H & _).
        destruct (upload_done _ _ _ _ _); cbn in *; subst; exact H. }
    destruct Hresp as (_ & _ & Hrl & Hra & _).
    rewrite Hl', Hl1 in Hrl. cbn [removelast] in Hrl.
    split; [exact Hrl|]. intros Hfin.
    split; [|congruence].
    clearbody done. destruct done as [wd sd]. cbn [status_of world_of] in *. subst sd.
    unfold step, deliver_sigint. cbn [status_of world_of]. rewrite Hrl.
    reflexivity.
Qed.

End UploadFacts.

(** ** The router *)

Section RouterFacts.
Context {RT : Runtime}.

Lemma apiKey_of_entry (e : option json) :
  truthy_val (IndexJs.apiKey_of (or_null e)) = truthy_val (get_val e "apiKey") /\
  (truthy_val (get_val e "apiKey") = true ->
   IndexJs.apiKey_of (or_null e) = get_val e "apiKey").
Proof.
  unfold IndexJs.apiKey_of, or_null.
  destruct e as [j|]; simpl; [|split; [reflexivity|discriminate]].
  destruct (truthy j) eqn:T; simpl; [rewrite T; split; reflexivity|].
  destruct j; simpl in *; try discriminate; split; try reflexivity;
    discriminate.
Qed.

Lemma size_check_cases (filePath answer : string) (w : world) :
  exists w', said_more w w' /\
    size_check filePath answer w
    = if declines w filePath answer then Exit 0 w' else Return tt w'.
Proof.
  unfold size_check, declines. js_red.
  destruct (local_files w !! filePath) as [size|];
    [|exists w; split; [apply said_more_refl|reflexivity]].
  destruct (10 * 2 ^ 30 <? size)%N; cbn [andb];
    [|exists w; split; [apply said_more_refl|reflexivity]].
  destruct (affirmative answer); cbn [negb];
    (eexists; split; [|reflexivity]); repeat split.
Qed.

Lemma gofile_authorization_cases (apiKey : option json) :
  (truthy_val apiKey = false -> gofile_authorization apiKey = Some None) /\
  (forall t, apiKey = Some (JStr t) -> t <> "" ->
     gofile_authorization apiKey = Some (Some ("Bearer " ++ t))).
Proof.
  unfold gofile_authorization. split.
  - intros ->. reflexivity.
  - intros t -> Ht. cbn.
    destruct (String.eqb_spec t ""); [contradiction|reflexivity].
Qed.

(** C5, as amended.  For a file path that is not empty:  routed to
    Pixeldrain with no stored Pixeldrain key, [uploadFile] exits before any
    request is made, with status 1 and the message about the missing key,
    unless the size warning was shown and declined, in which case it exits
    with status 0;  routed to Gofile with an existing file, it sends one
    request, without Authorization header when no token is stored, and with
    the header ["Bearer " ++ t] when the non-empty string [t] is stored. *)
Theorem anonymous_upload_gofile_only (w : world) (filePath : string)
    (flag : option string) (answer now : string) (startTime : float) :
  filePath <> "" ->
  (route flag = Pixeldrain ->
   truthy_val (stored_key (config_file w) Pixeldrain) = false ->
   exists w',
     IndexJs.uploadFile filePath flag answer now startTime w
     = Exit (if declines w filePath answer then 0 else 1) w' /\
     said_more w w' /\
     (declines w filePath answer = false ->
      head (console w') = Some MsgNoPixeldrainKey)) /\
  (route flag = Gofile ->
   forall size, local_files w !! filePath = Some size ->
   (truthy_val (stored_key (config_file w) Gofile) = false ->
    exists p w' r,
      IndexJs.uploadFile filePath flag answer now startTime w
      = Return (Started p) w' /\
      sent w' = r :: sent w /\
      req_authorization r = None) /\
   (forall t, stored_key (config_file w) Gofile = Some (JStr t) -> t <> "" ->
    exists p w' r,
      IndexJs.uploadFile filePath flag answer now startTime w
      = Return (Started p) w' /\
      sent w' = r :: sent w /\
      req_authorization r = Some ("Bearer " ++ t))).
Proof.
  intros Hpath. unfold IndexJs.uploadFile, stored_key.
  destruct (String.eqb_spec filePath ""); [contradiction|].
  split.
  - intros -> Hkey. cbn [is_pixeldrain]. unfold bind at 1.
    rewrite getServiceCredentials_skips_old_format. cbn [service_key] in *.
    destruct (apiKey_of_entry (doc_get2 (config_file w) "services" "pixeldrain"))
      as (Ht & _).
    rewrite Hkey in Ht. rewrite Ht. cbn [negb andb]. unfold bind at 1.
    destruct (size_check_cases filePath answer w) as (w1 & Hw1 & ->).
    destruct (declines w filePath answer).
    + exists w1. split; [reflexivity|]. split; [exact Hw1|discriminate].
    + js_red. eexists. split; [reflexivity|]. split; [|reflexivity].
      exact Hw1.
  - intros -> size Hsize. cbn [is_pixeldrain]. js_red.
    rewrite !getServiceCredentials_skips_old_format. cbn [service_key] in *.
    destruct (apiKey_of_entry (doc_get2 (config_file w) "services" "gofile"))
      as (Ht & Heq).
    rewrite andb_false_r. js_red.
    pose proof (uploadToGofile_begin filePath
      (IndexJs.apiKey_of (or_null (doc_get2 (config_file w) "services" "gofile")))
      startTime w) as Hb.
    rewrite Hsize in Hb.
    destruct (gofile_authorization_cases
      (IndexJs.apiKey_of (or_null (doc_get2 (config_file w) "services" "gofile"))))
      as (Hnone & Hsome).
    split.
    + intros Hkey. rewrite Hkey in Ht. rewrite (Hnone Ht) in Hb.
      destruct Hb as (w' & Hrun & (_ & _ & _ & _ & _ & Hs & _)).
      eexists _, w', _.
      rewrite -> Hrun.
      split; [reflexivity|]. split; [exact Hs|reflexivity].
    + intros t Hkey Hne.
      assert (Htruthy : truthy_val (Some (JStr t)) = true).
      { cbn. destruct (String.eqb_spec t ""); [contradiction|reflexivity]. }
      rewrite <- Hkey in Htruthy. specialize (Heq Htruthy).
      rewrite Hkey in Heq. rewrite (Hsome t Heq Hne) in Hb.
      destruct Hb as (w' & Hrun & (_ & _ & _ & _ & _ & Hs & _)).
      eexists _, w', _. rewrite -> Hrun.
      split; [reflexivity|]. split; [exact Hs|reflexivity].
Qed.

End RouterFacts.

(** ** Saving, finding and deleting keys *)

Section ConfigRoundTrips.
Context {RT : Runtime}.

Lemma saveConfig_outcome (w : world) (s : service) (creds : gmap string json)
    (now : string) :
  s <> GoogleDrive ->
  IndexJs.saveConfig s creds now w =
    match put_service (loaded_config (config_file w)) (service_key s)
            (service_entry (creds !! "apiKey") now) with
    | Some c' => Return tt (set_config_file (Doc c') w)
    | None => Throw TypeError w
    end.
Proof.
  intros Hs. unfold IndexJs.saveConfig. js_red.
  destruct (IndexJs_loadConfig_pure w) as (j & -> & Hj). rewrite -> Hj.
  destruct s; try congruence;
    destruct (put_service _ _ _); reflexivity.
Qed.

Lemma saveConfig_drive_outcome (w : world) (creds : gmap string json)
    (now : string) :
  IndexJs.saveConfig GoogleDrive creds now w =
    Return tt
      (set_config_file
         (Doc (assign (loaded_config (config_file w)) "googleDrive"
                 (JObj (<["updatedAt" := JStr now]> creds)))) w).
Proof.
  unfold IndexJs.saveConfig. js_red.
  destruct (IndexJs_loadConfig_pure w) as (j & -> & Hj). rewrite -> Hj.
  reflexivity.
Qed.

Lemma service_entry_truthy (k : option json) (now : string) :
  truthy (service_entry k now) = true /\
  get (service_entry k now) "apiKey" = k.
Proof.
  split; [reflexivity|]. unfold service_entry, with_field. simpl.
  rewrite lookup_insert_ne by discriminate.
  destruct k; [apply lookup_insert_eq | apply lookup_empty].
Qed.

(** A key filed by [saveConfig] is the key found afterwards.  On a
    configuration file that gives an object whose [services] is absent,
    falsy or an object, [saveConfig s credentials] returns for Pixeldrain
    and Gofile; the next [getServiceCredentials s] returns the entry
    [{apiKey, updatedAt}] just written, without touching the file; and its
    callers read [credentials.apiKey] from that entry ([undefined] when the
    credentials had none). *)
Theorem saved_key_is_found (w : world) (s : service)
    (credentials : gmap string json) (now later : string) :
  s <> GoogleDrive ->
  accepts_service_keys (config_file w) = true ->
  exists w',
    IndexJs.saveConfig s credentials now w = Return tt w' /\
    IndexJs.getServiceCredentials s later w'
      = Return (service_entry (credentials !! "apiKey") now) w' /\
    IndexJs.apiKey_of (service_entry (credentials !! "apiKey") now)
      = credentials !! "apiKey".
Proof.
  intros Hs Hacc.
  rewrite -> saveConfig_outcome by exact Hs.
  unfold accepts_service_keys in Hacc.
  destruct (loaded_config (config_file w)) as [| | | | |m] eqn:El;
    try discriminate.
  simpl. eexists. split; [reflexivity|].
  destruct (service_entry_truthy (credentials !! "apiKey") now) as (Ht & Hg).
  split.
  2:{ unfold IndexJs.apiKey_of. rewrite Ht. exact Hg. }
  rewrite -> getServiceCredentials_skips_old_format.
  assert (Hd : doc_get2
            (config_file (set_config_file
               (Doc (JObj (<["services" :=
                  assign match m !! "services" with
                         | Some s0 => if truthy s0 then s0 else JObj ∅
                         | None => JObj ∅
                         end (service_key s)
                    (service_entry (credentials !! "apiKey") now)]> m))) w))
            "services" (service_key s)
          = Some (service_entry (credentials !! "apiKey") now)).
  { unfold doc_get2, doc_get. simpl. rewrite lookup_insert_eq. simpl.
    destruct (m !! "services") as [sv|]; simpl.
    - destruct sv; simpl in *;
        try discriminate;
        try (apply negb_true_iff in Hacc; rewrite Hacc); simpl;
        apply lookup_insert_eq.
    - apply lookup_insert_eq. }
  destruct s; try congruence; rewrite Hd; reflexivity.
Qed.

Lemma lookup_result (w : world) (s : service) (now : string) :
  result (IndexJs.getServiceCredentials s now w) =
    Some (match s with
          | GoogleDrive => or_null (doc_get (config_file w) "googleDrive")
          | _ => or_null (doc_get2 (config_file w) "services" (service_key s))
          end).
Proof. rewrite -> getServiceCredentials_skips_old_format. reflexivity. Qed.

(** On every other configuration file the key is dropped without a word.
    When the stored document is an array, or an object whose [services] is
    a truthy value that is not an object, [saveConfig] returns and the file
    holds what it held; when the document is a truthy primitive it throws a
    TypeError before writing.  In each case the next lookup of the service
    returns [null]. *)
Theorem unaccepted_key_is_dropped (w : world) (s : service)
    (credentials : gmap string json) (now later : string) :
  s <> GoogleDrive ->
  accepts_service_keys (config_file w) = false ->
  let saved := IndexJs.saveConfig s credentials now w in
  match loaded_config (config_file w) with
  | JObj _ | JArr _ =>
      saved = Return tt
                (set_config_file (Doc (loaded_config (config_file w))) w)
  | _ => saved = Throw TypeError w
  end /\
  IndexJs.getServiceCredentials s later (final saved)
    = Return JNull (final saved).
Proof.
  intros Hs Hacc saved. subst saved.
  rewrite -> saveConfig_outcome by exact Hs.
  rewrite -> getServiceCredentials_skips_old_format.
  unfold accepts_service_keys in Hacc.
  pose proof (doc_get_loaded (config_file w) "services") as Hget.
  destruct (loaded_config (config_file w)) as [| | | |l|m] eqn:El;
    simpl in *.
  1-4: (split; [reflexivity|]);
    unfold doc_get2; rewrite <- Hget; destruct s; try congruence; reflexivity.
  - split; [reflexivity|].
    unfold doc_get2. simpl. destruct s; try congruence; reflexivity.
  - destruct (m !! "services") as [sv|] eqn:Es; [|discriminate].
    assert (Hsv : truthy sv = true /\ assign sv (service_key s)
                     (service_entry (credentials !! "apiKey") now) = sv /\
                  get sv (service_key s) = None).
    { destruct sv; simpl in *; try discriminate;
        try (apply negb_false_iff in Hacc); auto. }
    destruct Hsv as (Ht & Ha & Hg). rewrite Ht, Ha.
    rewrite insert_id by exact Es.
    split; [reflexivity|].
    unfold doc_get2. simpl. rewrite Es. simpl. rewrite Hg.
    destruct s; try congruence; reflexivity.
Qed.

(** After [deleteServiceConfig s], whatever it found and printed, the
    lookup of [s] returns [null] and changes nothing. *)
Theorem deleted_key_is_not_found (w : world) (s : service) (later : string) :
  s <> GoogleDrive ->
  let w' := final (IndexJs.deleteServiceConfig s w) in
  IndexJs.getServiceCredentials s later w' = Return JNull w'.
Proof.
  intros Hs w'. subst w'.
  rewrite -> getServiceCredentials_skips_old_format.
  destruct (deleteServiceConfig_final w s)
    as [(Hf & ->) | (m & sv & Hw & Hm & Ht & ->)].
  - destruct (doc_get2 (config_file w) "services" (service_key s)) as [e|];
      simpl in *; [rewrite Hf|]; destruct s; try congruence; reflexivity.
  - unfold doc_get2, doc_get. simpl. rewrite lookup_insert_eq. simpl.
    rewrite lookup_delete_eq. destruct s; try congruence; reflexivity.
Qed.

Lemma saved_other_fields (w : world) (s : service) (creds : gmap string json)
    (now s' : string) :
  s' <> service_key s ->
  let saved := config_file (final (IndexJs.saveConfig s creds now w)) in
  doc_get2 saved "services" s' = doc_get2 (config_file w) "services" s' /\
  (s <> GoogleDrive ->
   doc_get saved "googleDrive" = doc_get (config_file w) "googleDrive").
Proof.
  intros Hne saved. subst saved.
  destruct (saveConfig_final w s creds now)
    as [-> | [(Hs & ->) | (Hs & c' & Hput & ->)]].
  - split; auto.
  - split; [|congruence]. unfold doc_get2, doc_get.
    rewrite get_assign_ne by discriminate. rewrite doc_get_loaded. reflexivity.
  - destruct (get_put_service_other _ _ _ s' _ Hput Hne) as (H1 & H2).
    unfold doc_get2, doc_get. rewrite H1, doc_get_loaded. split; [reflexivity|].
    intros _. rewrite H2 by discriminate. apply doc_get_loaded.
Qed.

Lemma deleted_other_fields (w : world) (s : service) (s' : string) :
  s' <> service_key s ->
  let deleted := config_file (final (IndexJs.deleteServiceConfig s w)) in
  doc_get2 deleted "services" s' = doc_get2 (config_file w) "services" s' /\
  (forall k, k <> "services" -> doc_get deleted k = doc_get (config_file w) k).
Proof.
  intros Hne deleted. subst deleted.
  destruct (deleteServiceConfig_final w s)
    as [(Hf & ->) | (m & sv & Hw & Hm & Ht & ->)].
  - split; auto.
  - rewrite Hw. unfold doc_get2, doc_get. simpl. split.
    + rewrite lookup_insert_eq, Hm. simpl. apply lookup_delete_ne. congruence.
    + intros k Hk. apply lookup_insert_ne. congruence.
Qed.

Lemma service_key_inj (s s' : service) : service_key s = service_key s' -> s = s'.
Proof. destruct s, s'; simpl; intros H; try reflexivity; discriminate. Qed.

(** Saving or deleting the entry of one service does not change what the
    lookup of any other service returns, Google Drive included. *)
Theorem lookup_ignores_other_services (w : world) (s s' : service)
    (credentials : gmap string json) (now later : string) :
  s' <> s ->
  result (IndexJs.getServiceCredentials s' later
            (final (IndexJs.saveConfig s credentials now w)))
    = result (IndexJs.getServiceCredentials s' later w) /\
  result (IndexJs.getServiceCredentials s' later
            (final (IndexJs.deleteServiceConfig s w)))
    = result (IndexJs.getServiceCredentials s' later w).
Proof.
  intros Hne. rewrite !lookup_result.
  assert (Hk : service_key s' <> service_key s).
  { intros H. apply Hne, service_key_inj, H. }
  destruct (saved_other_fields w s credentials now _ Hk) as (Hs1 & Hs2).
  destruct (deleted_other_fields w s _ Hk) as (Hd1 & Hd2).
  simpl in Hs1, Hs2, Hd1, Hd2.
  destruct s'.
  - rewrite Hs1, Hd1. auto.
  - rewrite Hs1, Hd1. auto.
  - rewrite Hs2 by congruence. rewrite Hd2 by discriminate. auto.
Qed.

(** The credentials [configureGoogleDrive] saves give a client back.  On a
    configuration file that gives an object, once [saveConfig] has filed a
    truthy client id, client secret and refresh token under [googleDrive],
    [getGoogleDriveClient] returns a client built from the id and the
    secret, with the callback address of [createOAuth2Client] and the
    refresh token set on it. *)
Theorem saved_drive_credentials_give_a_client (w : world)
    (clientId clientSecret refreshToken : json) (now later : string) :
  accepts_sections (config_file w) = true ->
  truthy clientId = true ->
  truthy clientSecret = true ->
  truthy refreshToken = true ->
  exists w',
    IndexJs.saveConfig GoogleDrive
      (<["clientId" := clientId]>
         (<["clientSecret" := clientSecret]>
            {[ "refreshToken" := refreshToken ]})) now w = Return tt w' /\
    IndexJs.getGoogleDriveClient later w'
      = Return (Some (IndexJs.OAuth2Client clientId clientSecret
                        "http://localhost:3000/callback" refreshToken)) w'.
Proof.
  intros Hacc Hid Hsecret Htoken.
  rewrite -> saveConfig_drive_outcome.
  eexists. split; [reflexivity|].
  unfold IndexJs.getGoogleDriveClient. js_red.
  rewrite -> getServiceCredentials_skips_old_format.
  unfold accepts_sections in Hacc.
  destruct (loaded_config (config_file w)) as [| | | | |m]; try discriminate.
  unfold doc_get. simpl. rewrite lookup_insert_eq. simpl.
  rewrite lookup_insert_ne by discriminate. rewrite lookup_insert_eq.
  do 2 (rewrite lookup_insert_ne by discriminate). rewrite lookup_insert_eq.
  rewrite Hid, Hsecret. simpl.
  do 3 (rewrite lookup_insert_ne by discriminate). rewrite lookup_singleton_eq.
  rewrite Htoken. reflexivity.
Qed.

Lemma Part000_loadConfig_doc (w : world) (j : json) :
  config_file w = Doc j -> Part000.loadConfig w = Return j w.
Proof. intros H. unfold Part000.loadConfig. js_red. rewrite H. reflexivity. Qed.

(** The earlier entry point migrates a key of the old format once.  On a
    document with a top-level [apiKey] and no [services], the lookup for
    Pixeldrain returns that key and files it under [services.pixeldrain],
    keeping every other top-level field.  The document is then of the new
    format: a second lookup returns the same key and writes nothing, and
    [getServiceCredentials] of index.js finds the migrated entry. *)
Theorem legacy_key_is_migrated_once (w : world) (now later : string) :
  legacy_format (config_file w) = true ->
  exists k w',
    doc_get (config_file w) "apiKey" = Some k /\
    Part000.getServiceApiKey Pixeldrain now w = Return (Some k) w' /\
    doc_get2 (config_file w') "services" "pixeldrain"
      = Some (service_entry (Some k) now) /\
    (forall f, f <> "services" ->
       doc_get (config_file w') f = doc_get (config_file w) f) /\
    legacy_format (config_file w') = false /\
    Part000.getServiceApiKey Pixeldrain later w' = Return (Some k) w' /\
    IndexJs.getServiceCredentials Pixeldrain later w'
      = Return (service_entry (Some k) now) w'.
Proof.
  unfold legacy_format. intros Hl.
  apply andb_prop in Hl as (Hk & Hs). apply negb_true_iff in Hs.
  destruct (config_file w) as [| |j] eqn:F; try discriminate.
  destruct j as [| | | | |m]; try discriminate.
  simpl in Hk, Hs.
  destruct (m !! "apiKey") as [k|] eqn:Ek; [|discriminate].
  simpl in Hk.
  set (m' := <["services" :=
                JObj {[ "pixeldrain" := service_entry (Some k) now ]}]> m).
  exists k, (set_config_file (Doc (JObj m')) w).
  assert (Hfirst : Part000.getServiceApiKey Pixeldrain now w
                   = Return (Some k) (set_config_file (Doc (JObj m')) w)).
  { unfold Part000.getServiceApiKey, Part000.saveConfig. js_red.
    rewrite -> !(Part000_loadConfig_doc w (JObj m) F). simpl.
    rewrite Ek. simpl. rewrite Hk, Hs. simpl.
    rewrite -> (Part000_loadConfig_doc w (JObj m) F). simpl.
    unfold put_service.
    assert (Hsv : match m !! "services" with
                  | Some s => if truthy s then s else JObj ∅
                  | None => JObj ∅
                  end = JObj ∅).
    { destruct (m !! "services") as [sv|]; [|reflexivity].
      simpl in Hs. rewrite Hs. reflexivity. }
    rewrite Hsv. reflexivity. }
  assert (Hentry : m' !! "services"
                   = Some (JObj {[ "pixeldrain" := service_entry (Some k) now ]})).
  { apply lookup_insert_eq. }
  assert (Hkey : m' !! "apiKey" = Some k).
  { unfold m'. rewrite lookup_insert_ne by discriminate. exact Ek. }
  split; [exact Ek|]. split; [exact Hfirst|].
  split.
  { unfold doc_get2, doc_get. simpl. rewrite Hentry. simpl.
    apply lookup_singleton_eq. }
  split.
  { intros f Hf. unfold doc_get. simpl. apply lookup_insert_ne. congruence. }
  split.
  { simpl. rewrite Hentry, Hkey. simpl. rewrite Hk. reflexivity. }
  split.
  { unfold Part000.getServiceApiKey. js_red.
    rewrite -> (Part000_loadConfig_doc (set_config_file (Doc (JObj m')) w)
                  (JObj m') eq_refl). simpl.
    rewrite Hentry, Hkey. simpl. rewrite Hk. simpl.
    rewrite lookup_singleton_eq. simpl.
    rewrite lookup_insert_ne by discriminate.
    rewrite lookup_insert_eq. reflexivity. }
  rewrite -> getServiceCredentials_skips_old_format.
  unfold doc_get2, doc_get. simpl. rewrite Hentry. simpl.
  rewrite lookup_singleton_eq. reflexivity.
Qed.

(** The two versions of [saveConfig] do the same for Pixeldrain and
    Gofile: on a configuration file that parses or is missing, the earlier
    one, called with a key, ends as index.js's does with [{ apiKey: key }],
    in the same world. *)
Theorem both_saveConfig_write_the_same_file (w : world) (s : service)
    (apiKey : option json) (now : string) :
  s <> GoogleDrive ->
  config_file w <> Unparsable ->
  Part000.saveConfig s apiKey now w
    = IndexJs.saveConfig s (with_field "apiKey" apiKey ∅) now w.
Proof.
  intros Hs Hu. rewrite -> saveConfig_outcome by exact Hs.
  unfold Part000.saveConfig, Part000.loadConfig. js_red.
  assert (Hk : with_field "apiKey" apiKey ∅ !! "apiKey" = apiKey).
  { destruct apiKey; [apply lookup_insert_eq | apply lookup_empty]. }
  rewrite Hk.
  destruct (config_file w) as [| |j]; try congruence; simpl.
  - rewrite lookup_empty, lookup_singleton_eq. simpl.
    rewrite insert_singleton_eq. reflexivity.
  - destruct (truthy j) eqn:T.
    + destruct (put_service j _ _); reflexivity.
    + simpl. rewrite lookup_empty, lookup_singleton_eq. simpl.
      rewrite insert_singleton_eq. reflexivity.
Qed.

(** In the earlier entry point, saving a Gofile key on a document of the
    old format hides the old Pixeldrain key: before, the lookup for
    Pixeldrain returns the top-level [apiKey]; after [saveConfig] has
    created [services] for Gofile, the document no longer counts as old,
    the lookup returns [null] and migrates nothing, although the top-level
    [apiKey] is still in the file. *)
Theorem gofile_key_hides_legacy_key (w : world) (token : option json)
    (now later : string) :
  legacy_format (config_file w) = true ->
  exists k w',
    result (Part000.getServiceApiKey Pixeldrain later w) = Some (Some k) /\
    truthy k = true /\
    Part000.saveConfig Gofile token now w = Return tt w' /\
    Part000.getServiceApiKey Pixeldrain later w' = Return (Some JNull) w' /\
    doc_get (config_file w') "apiKey" = Some k.
Proof.
  intros Hl.
  pose proof (getServiceApiKey_result w Pixeldrain later) as Hr.
  rewrite Hl in Hr. simpl in Hr.
  unfold legacy_format in Hl.
  apply andb_prop in Hl as (Hk & Hs). apply negb_true_iff in Hs.
  destruct (config_file w) as [| |j] eqn:F; try discriminate.
  destruct j as [| | | | |m]; try discriminate.
  simpl in Hk, Hs, Hr.
  destruct (m !! "apiKey") as [k|] eqn:Ek; [|discriminate].
  simpl in Hk.
  set (m' := <["services" :=
                JObj {[ "gofile" := service_entry token now ]}]> m).
  exists k, (set_config_file (Doc (JObj m')) w).
  split; [exact Hr|]. split; [exact Hk|].
  assert (Hentry : m' !! "services"
                   = Some (JObj {[ "gofile" := service_entry token now ]})).
  { apply lookup_insert_eq. }
  assert (Hkey : m' !! "apiKey" = Some k).
  { unfold m'. rewrite lookup_insert_ne by discriminate. exact Ek. }
  split.
  { unfold Part000.saveConfig. js_red.
    rewrite -> (Part000_loadConfig_doc w (JObj m) F). simpl.
    assert (Hsv : match m !! "services" with
                  | Some s => if truthy s then s else JObj ∅
                  | None => JObj ∅
                  end = JObj ∅).
    { destruct (m !! "services") as [sv|]; [|reflexivity].
      simpl in Hs. rewrite Hs. reflexivity. }
    rewrite Hsv. reflexivity. }
  split; [|exact Hkey].
  unfold Part000.getServiceApiKey. js_red.
  rewrite -> (Part000_loadConfig_doc (set_config_file (Doc (JObj m')) w)
                (JObj m') eq_refl). simpl.
  rewrite Hentry, Hkey. simpl. rewrite Hk. simpl.
  rewrite lookup_singleton_ne by discriminate. reflexivity.
Qed.

End ConfigRoundTrips.

(** ** The two routers *)

Section EntryPoints.
Context {RT : Runtime}.



Lemma started_shape (w w1 : world) (filePath : string) (o : outcome pending)
    (size_of : N -> pending) (r : option request) (drive : world -> Prop) :
  said_more w w1 ->
  match local_files w1 !! filePath, r with
  | Some size, Some r =>
      exists w', o = Return (size_of size) w' /\ in_flight w1 w' r
  | _, _ =>
      exists w' code, o = Exit code w' /\ code = 1 /\ said_more w1 w'
  end ->
  let o' := match o with
            | Return p w' => Return (Started p) w'
            | Throw e w' => Throw e w'
            | Exit code w' => Exit code w'
            end in
  config_file (final o') = config_file w /\
  history_file (final o') = history_file w /\
  match o' with
  | Return (Started p) w' =>
      exists r size,
        sent w' = r :: sent w /\
        sigint_listeners w' = (sigint_listeners w ++ [HandleCancel])%list /\
        local_files w !! filePath = Some size /\
        p = size_of size
  | Return StartedDrive w' => drive w'
  | Exit code w' => sent w' = sent w /\ (code = 0 \/ code = 1)
  | Throw _ _ => False
  end.
Proof.
  intros (Hc & Hh & Hl & Hsl & Ha & Hs & Hcl) H o'. subst o'.
  rewrite Hl in H.
  destruct (local_files w !! filePath) as [size|]; [destruct r as [r|]|].
  - destruct H as (w' & -> & (Hc' & Hh' & Hl' & Hsl' & Ha' & Hs' & Hcl')).
    simpl. repeat split; try congruence.
    exists r, size. repeat split; congruence.
  - destruct H as (w' & code & -> & -> & (Hc' & Hh' & Hl' & Hsl' & Ha' & Hs' & Hcl')).
    simpl. repeat split; try congruence. auto.
  - destruct H as (w' & code & -> & -> & (Hc' & Hh' & Hl' & Hsl' & Ha' & Hs' & Hcl')).
    simpl. repeat split; try congruence. auto.
Qed.

(** [uploadFile] of index.js, up to the request: it never throws and never
    writes the configuration or the history.  When it returns with an upload
    in flight, the file exists, exactly one request was sent, one SIGINT
    listener was added, and the pending upload is that of the routed
    service for that file; for Google Drive it hands over without touching
    anything; otherwise it exits with status 0 or 1 and no request was
    sent. *)
Theorem uploadFile_starts_at_most_one_request (w : world) (filePath : string)
    (flag : option string) (answer now : string) (startTime : float) :
  let o := IndexJs.uploadFile filePath flag answer now startTime w in
  config_file (final o) = config_file w /\
  history_file (final o) = history_file w /\
  match o with
  | Return (Started p) w' =>
      exists r size,
        sent w' = r :: sent w /\
        sigint_listeners w' = (sigint_listeners w ++ [HandleCancel])%list /\
        local_files w !! filePath = Some size /\
        p = Pending (match route flag with
                     | Pixeldrain => ToPixeldrain
                     | _ => ToGofile
                     end)
              (path_basename filePath) (formatFileSize size)
              (Tracker 0 startTime)
  | Return StartedDrive w' => w' = w /\ route flag = GoogleDrive
  | Exit code w' => sent w' = sent w /\ (code = 0 \/ code = 1)
  | Throw _ _ => False
  end.
Proof.
  intros o. subst o. unfold IndexJs.uploadFile.
  destruct (String.eqb filePath "").
  { simpl. auto. }
  destruct (route flag) eqn:R.
  - js_red. rewrite -> getServiceCredentials_skips_old_format.
    cbn [is_pixeldrain].
    destruct (size_check_cases filePath answer w) as (w1 & Hsm & ->).
    destruct (declines w filePath answer).
    { destruct Hsm as (Hc & Hh & Hl & Hsl & Ha & Hs & Hcl). simpl. auto. }
    destruct (negb (truthy_val _) && true).
    { destruct Hsm as (Hc & Hh & Hl & Hsl & Ha & Hs & Hcl). simpl. auto. }
    match goal with
    | |- context [uploadToPixeldrain ?f ?k ?t ?w0] =>
        pose proof (uploadToPixeldrain_begin f k t w0) as Hb;
        apply (started_shape w w1 filePath (uploadToPixeldrain f k t w0)
                 (fun size => Pending ToPixeldrain (path_basename filePath)
                                (formatFileSize size) (Tracker 0 startTime))
                 (match to_string_val k with
                  | Some k' =>
                      Some (Request PIXELDRAIN_UPLOAD_URL
                              (Some ("Basic " ++ base64 (":" ++ k')))
                              (path_basename filePath)
                              (Some "application/octet-stream"))
                  | None => None
                  end) (fun w' => w' = w /\ Pixeldrain = GoogleDrive) Hsm);
        destruct (local_files w0 !! f); [destruct (to_string_val k)|]; exact Hb
    end.
  - js_red. rewrite -> getServiceCredentials_skips_old_format.
    cbn [is_pixeldrain andb negb].
    rewrite andb_false_r.
    match goal with
    | |- context [uploadToGofile ?f ?k ?t ?w0] =>
        pose proof (uploadToGofile_begin f k t w0) as Hb;
        apply (started_shape w w filePath (uploadToGofile f k t w0)
                 (fun size => Pending ToGofile (path_basename filePath)
                                (formatFileSize size) (Tracker 0 startTime))
                 (match gofile_authorization k with
                  | Some a =>
                      Some (Request "https://upload.gofile.io/uploadfile" a
                              (path_basename filePath) None)
                  | None => None
                  end) (fun w' => w' = w /\ Gofile = GoogleDrive)
                 (said_more_refl w));
        destruct (local_files w0 !! f); [destruct (gofile_authorization k)|];
        exact Hb
    end.
  - simpl. auto.
Qed.

End EntryPoints.

(** ** Any sequence of events *)

Section RunFacts.
Context {RT : Runtime}.

Lemma typeerror_caught {A : Type} (w : world) :
  @upload_catch RT A TypeError w
  = Exit 1 (set_console (MsgError :: MsgUploadFailed :: console w) w).
Proof. reflexivity. Qed.

Lemma upload_done_outcome (p : pending) (data : json) (timestamp : string)
    (clipboard_works : bool) (w : world) :
  exists w',
    responded w w' /\
    ((upload_done p data timestamp clipboard_works w = Return tt w' /\
      one_entry_added w w') \/
     (upload_done p data timestamp clipboard_works w = Exit 1 w' /\
      (history_file w' = history_file w \/ one_entry_added w w'))).
Proof.
  assert (Hfail : forall w1 : world,
            responded w w1 -> history_file w1 = history_file w ->
            exists w',
              responded w w' /\
              ((@upload_catch RT unit TypeError w1 = Return tt w' /\
                one_entry_added w w') \/
               (@upload_catch RT unit TypeError w1 = Exit 1 w' /\
                (history_file w' = history_file w \/ one_entry_added w w')))).
  { intros w1 (? & ? & ? & ? & ?) Hh. rewrite typeerror_caught.
    eexists. split; [|right; split; [reflexivity|left; exact Hh]].
    repeat split; simpl; assumption. }
  unfold upload_done.
  destruct (p_service p).
  - unfold pixeldrain_done. js_red.
    destruct (member (Some data) "id") as [fileId|];
      [|apply Hfail; [apply removed_listener_responded|reflexivity]].
    destruct (to_string_val fileId) as [id|];
      [|apply Hfail; [apply removed_listener_responded|reflexivity]].
    set (w1 := set_console _ (remove_listener w)).
    set (entry := historyEntry _ _ _ _ _ _).
    pose proof (saveHistory_cases entry w1) as Hs.
    change (history_file w1) with (history_file w) in Hs.
    destruct (history_list (history_file w)) as [h|] eqn:Hl.
    + destruct Hs as (w2 & -> & Hh & (? & ? & ? & ? & ? & ?)).
      subst w1; simpl in *.
      unfold copy_link. destruct clipboard_works; js_red;
        (eexists; split; [|left; split; [reflexivity|exists entry, h; split; [exact Hl|exact Hh]]]);
        repeat split; simpl; congruence.
    + rewrite Hs. apply Hfail; [apply removed_listener_responded|reflexivity].
  - unfold gofile_done. js_red.
    destruct (member (Some data) "data") as [inner|];
      [|apply Hfail; [apply removed_listener_responded|reflexivity]].
    destruct (member inner "fileId") as [fileId|];
      [|apply Hfail; [apply removed_listener_responded|reflexivity]].
    destruct (member inner "downloadPage") as [downloadLink|];
      [|apply Hfail; [apply removed_listener_responded|reflexivity]].
    set (w1 := set_console _ (remove_listener w)).
    set (entry := historyEntry _ _ _ _ _ _).
    pose proof (saveHistory_cases entry w1) as Hs.
    change (history_file w1) with (history_file w) in Hs.
    destruct (history_list (history_file w)) as [h|] eqn:Hl.
    + destruct Hs as (w2 & -> & Hh & (? & ? & ? & ? & ? & ?)).
      subst w1; simpl in *.
      destruct (to_string_val downloadLink) as [shown|].
      * unfold copy_link.
        destruct downloadLink as [[]|]; try destruct clipboard_works; js_red;
          (eexists; split; [|left; split; [reflexivity|exists entry, h; split; [exact Hl|exact Hh]]]);
          repeat split; simpl; congruence.
      * rewrite typeerror_caught.
        eexists; split; [|right; split; [reflexivity|right; exists entry, h; split; [exact Hl|exact Hh]]].
        repeat split; simpl; congruence.
    + rewrite Hs. apply Hfail; [apply removed_listener_responded|reflexivity].
Qed.

Lemma step_upload_state (w : world) (pr : process) (e : event) :
  upload_state w pr -> upload_state w (step pr e).
Proof.
  destruct pr as [w1 st]. unfold upload_state, step. simpl.
  destruct st as [p| | |code|err|]; try (intros H; exact H).
  - intros (Hl & Ha & Hh). destruct e as [ev t| |data ts cw|err].
    + destruct (onUploadProgress (p_tracker p) ev t) as [tr smp]. simpl.
      destruct (report_keeps_files smp w1) as (_ & Hh' & _ & Hl' & Ha' & _).
      repeat split; congruence.
    + unfold deliver_sigint. simpl. rewrite Hl. simpl.
      left. auto.
    + destruct (upload_done_outcome p data ts cw w1)
        as (w' & (_ & _ & Hl' & Ha' & _) & [(-> & Hadd) | (-> & Hadd)]);
        simpl.
      * rewrite Hl in Hl'. split; [exact Hl'|]. split; [congruence|].
        destruct Hadd as (entry & h & H1 & H2). exists entry, h.
        split; [congruence|exact H2].
      * right. split; [reflexivity|]. split; [congruence|].
        destruct Hadd as [Hsame | (entry & h & H1 & H2)].
        -- left. congruence.
        -- right. exists entry, h. split; [congruence|exact H2].
    + destruct (@upload_catch_exits RT unit err w1)
        as (w' & (_ & Hh' & _ & _ & Ha' & _) & [-> | ->]); simpl.
      * right. split; [reflexivity|]. split; [congruence|]. left. congruence.
      * split; [reflexivity|]. split; congruence.
  - intros [].
  - intros (Hl & Ha & Hadd). destruct e; simpl; auto.
    unfold deliver_sigint. simpl. rewrite Hl. simpl. auto.
Qed.

Lemma run_upload_state (w : world) (events : list event) (pr : process) :
  upload_state w pr -> upload_state w (run pr events).
Proof.
  revert pr. induction events as [|e events IH]; intros pr H; [exact H|].
  apply IH, step_upload_state, H.
Qed.

(** Where an upload can end, whatever the event loop delivers and in
    whatever order.  From a request in flight whose listener is the only
    one: while the request is pending the history is untouched; a finished
    upload (also one killed by a later SIGINT) has put exactly one entry in
    front of the history and removed the listener; status 0 is reached by
    cancelling only, with the history untouched; status 1 leaves the
    history untouched or with the one entry; an escaping exception is a
    TypeError and leaves the history untouched.  So an upload never adds
    more than one entry, and never adds one when it was cancelled. *)
Theorem upload_adds_at_most_one_entry (w : world) (p : pending)
    (events : list event) :
  sigint_listeners w = [HandleCancel] ->
  aborted w = false ->
  let pr := run (Process w (Awaiting p)) events in
  let w' := world_of pr in
  match status_of pr with
  | Awaiting _ =>
      sigint_listeners w' = [HandleCancel] /\ aborted w' = false /\
      history_file w' = history_file w
  | Finished | Killed =>
      sigint_listeners w' = [] /\ aborted w' = false /\ one_entry_added w w'
  | Exited code =>
      (code = 0 /\ aborted w' = true /\ history_file w' = history_file w) \/
      (code = 1 /\ aborted w' = false /\
       (history_file w' = history_file w \/ one_entry_added w w'))
  | Crashed e =>
      e = TypeError /\ aborted w' = false /\ history_file w' = history_file w
  | AwaitingDrive => False
  end.
Proof.
  intros Hl Ha.
  apply (run_upload_state w events (Process w (Awaiting p))).
  unfold upload_state. simpl. auto.
Qed.

Lemma step_keeps_requests (pr : process) (e : event) :
  config_file (world_of (step pr e)) = config_file (world_of pr) /\
  local_files (world_of (step pr e)) = local_files (world_of pr) /\
  sent (world_of (step pr e)) = sent (world_of pr).
Proof.
  assert (Hsig : config_file (world_of (deliver_sigint pr))
                 = config_file (world_of pr) /\
                 local_files (world_of (deliver_sigint pr))
                 = local_files (world_of pr) /\
                 sent (world_of (deliver_sigint pr)) = sent (world_of pr)).
  { unfold deliver_sigint.
    destruct (sigint_listeners (world_of pr)) as [|[] ?]; simpl; auto. }
  destruct pr as [w st]. unfold step. simpl.
  destruct st as [p| | |code|err|]; simpl; auto.
  - destruct e as [ev t| |data ts cw|err]; [| exact Hsig | |].
    + destruct (onUploadProgress (p_tracker p) ev t) as [tr smp]. simpl.
      destruct (report_keeps_files smp w) as (? & _ & ? & _ & _ & ? & _).
      auto.
    + destruct (upload_done_outcome p data ts cw w)
        as (w' & (? & ? & _ & _ & ?) & [(-> & _) | (-> & _)]); simpl; auto.
    + destruct (@upload_catch_exits RT unit err w)
        as (w' & (? & _ & ? & _ & _ & ? & _) & [-> | ->]); simpl; auto.
  - destruct e; simpl; auto.
  - destruct e; simpl; auto.
Qed.

(** No event, in any state of the process, sends a request, writes the
    configuration file or touches the local files. *)
Theorem events_send_nothing_and_keep_the_configuration (pr : process)
    (events : list event) :
  config_file (world_of (run pr events)) = config_file (world_of pr) /\
  local_files (world_of (run pr events)) = local_files (world_of pr) /\
  sent (world_of (run pr events)) = sent (world_of pr).
Proof.
  revert pr. induction events as [|e events IH]; intros pr; [auto|].
  destruct (IH (step pr e)) as (H1 & H2 & H3).
  destruct (step_keeps_requests pr e) as (H4 & H5 & H6).
  simpl. unfold run in *. repeat split; congruence.
Qed.

End RunFacts.

(** ** The history over several uploads *)

Section HistoryOrder.
Context {RT : Runtime}.

Lemma saveHistory_each_from (entries : list json) (w : world) (h : list json) :
  history_list (history_file w) = Some h ->
  entries <> [] ->
  exists w',
    saveHistory_each entries w = Return tt w' /\
    history_file w' = Doc (JArr (take 50 (rev entries ++ h))) /\
    history_written w w'.
Proof.
  revert w h. induction entries as [|e entries IH]; intros w h Hh Hne;
    [congruence|].
  cbn [saveHistory_each]. js_red.
  pose proof (saveHistory_cases e w) as Hs. rewrite Hh in Hs.
  destruct Hs as (w1 & -> & Hf & Hw).
  destruct entries as [|e' entries].
  - exists w1. split; [reflexivity|]. split; [exact Hf|exact Hw].
  - destruct (IH w1 (take 50 (e :: h))) as (w2 & Hrun & Hf2 & Hw2);
      [rewrite Hf; reflexivity|discriminate|].
    exists w2. split; [exact Hrun|]. split.
    + rewrite Hf2. f_equal. f_equal.
      change (rev (e :: e' :: entries)) with (rev (e' :: entries) ++ [e])%list.
      rewrite <- app_assoc. cbn [app].
      rewrite !take_app.
      destruct (decide (length (rev (e' :: entries)) < 50)%nat) as [Hlt|Hge].
      * f_equal.
        replace (50 - length (rev (e' :: entries)))%nat
          with (S (49 - length (rev (e' :: entries))))%nat by lia.
        cbn [take]. f_equal. rewrite take_take. f_equal. lia.
      * replace (50 - length (rev (e' :: entries)))%nat with 0%nat by lia.
        reflexivity.
    + destruct Hw as (? & ? & ? & ? & ? & ?), Hw2 as (? & ? & ? & ? & ? & ?).
      repeat split; congruence.
Qed.

(** Successive [saveHistory] calls keep the newest 50 entries, newest
    first: starting from a stored list [h], saving [entries] one after the
    other leaves the reversed [entries] in front of [h], cut to 50; once 50
    or more were saved, nothing of [h] is left and the file holds the last
    50 of them.  The configuration file is not touched. *)
Theorem successive_saves_keep_the_newest_50 (entries : list json) (w : world)
    (h : list json) :
  history_list (history_file w) = Some h ->
  entries <> [] ->
  exists w',
    saveHistory_each entries w = Return tt w' /\
    history_list (history_file w') = Some (take 50 (rev entries ++ h)) /\
    ((50 <= length entries)%nat ->
     history_list (history_file w')
       = Some (rev (drop (length entries - 50) entries))) /\
    config_file w' = config_file w.
Proof.
  intros Hh Hne.
  destruct (saveHistory_each_from entries w h Hh Hne) as (w' & Hrun & Hf & Hw).
  exists w'. split; [exact Hrun|]. rewrite Hf. cbn [history_list].
  split; [reflexivity|]. split; [|apply Hw].
  intros Hlen. f_equal.
  rewrite take_app, length_rev.
  replace (50 - length entries)%nat with 0%nat by lia.
  rewrite take_0, app_nil_r. apply firstn_rev.
Qed.

(** [deleteHistory] starts the history again.  It reports that there was
    nothing to delete exactly when the file is missing; afterwards
    [loadHistory] reads the empty list without a warning, and the next
    [saveHistory] returns and leaves a list of one entry, also when the
    file held something that was not a list before. *)
Theorem cleared_history_starts_again (w : world) (entry : json) :
  exists note w1 w2,
    deleteHistory w = Return note w1 /\
    (note = NoHistoryFound <-> history_file w = Missing) /\
    loadHistory w1 = Return (JArr []) w1 /\
    saveHistory entry w1 = Return tt w2 /\
    history_file w2 = Doc (JArr [entry]) /\
    config_file w2 = config_file w.
Proof.
  unfold deleteHistory, saveHistory, loadHistory. js_red.
  destruct (history_file w) as [| |j] eqn:Hf.
  - exists NoHistoryFound, w, (set_history_file (Doc (JArr [entry])) w).
    rewrite Hf. repeat split; reflexivity.
  - exists HistoryCleared, (set_history_file Missing w),
      (set_history_file (Doc (JArr [entry])) w).
    simpl. repeat split; try reflexivity; discriminate.
  - exists HistoryCleared, (set_history_file Missing w),
      (set_history_file (Doc (JArr [entry])) w).
    simpl. repeat split; try reflexivity; discriminate.
Qed.

End HistoryOrder.

(** ** The menus *)

Section MenuFacts.
Context {RT : Runtime}.







Lemma lower_y (c : ascii) : lower c = "y"%char -> c = "y"%char \/ c = "Y"%char.
Proof.
  destruct c as [[] [] [] [] [] [] [] []]; vm_compute; intros H;
    try discriminate H; auto.
Qed.

Lemma lower_e (c : ascii) : lower c = "e"%char -> c = "e"%char \/ c = "E"%char.
Proof.
  destruct c as [[] [] [] [] [] [] [] []]; vm_compute; intros H;
    try discriminate H; auto.
Qed.

Lemma lower_s (c : ascii) : lower c = "s"%char -> c = "s"%char \/ c = "S"%char.
Proof.
  destruct c as [[] [] [] [] [] [] [] []]; vm_compute; intros H;
    try discriminate H; auto.
Qed.

(** The size warning is passed by ten answers and no other: [y] and
    [yes] in any mix of upper and lower case, with nothing before or after
    (the answer is not trimmed). *)
Theorem affirmative_answers (answer : string) :
  affirmative answer = true <->
  In answer ["y"; "Y"; "yes"; "yeS"; "yEs"; "yES"; "Yes"; "YeS"; "YEs"; "YES"].
Proof.
  split.
  - unfold affirmative. intros H. apply orb_prop in H as [H | H];
      apply String.eqb_eq in H.
    + destruct answer as [|c [|c' r]]; try discriminate H.
      injection H as H. apply lower_y in H as [-> | ->]; simpl; auto.
    + destruct answer as [|c1 [|c2 [|c3 [|c4 r]]]]; try discriminate H.
      injection H as H1 H2 H3.
      apply lower_y in H1 as [-> | ->]; apply lower_e in H2 as [-> | ->];
        apply lower_s in H3 as [-> | ->]; simpl; tauto.
  - intros H. simpl in H.
    repeat (destruct H as [<- | H]; [reflexivity|]). destruct H.
Qed.

End MenuFacts.

(** * The statements at concrete inputs *)

#[local] Existing Instance example_runtime.

(** The stored history is full: the new entry goes first and the last of
    the old ones is dropped. *)
Lemma saveHistory_keeps_first_50_witness :
  let h := (replicate 49 (JStr "old") ++ [JStr "oldest"])%list in
  let w := set_history_file (Doc (JArr h)) fresh_world in
  history_list (history_file w) = Some h /\
  exists w',
    saveHistory (JStr "new") w = Return tt w' /\
    history_file w' = Doc (JArr (JStr "new" :: replicate 49 (JStr "old"))).
Proof.
  intros h w.
  assert (H : history_list (history_file w) = Some h) by reflexivity.
  split; [exact H|].
  destruct (saveHistory_keeps_first_50 w h (JStr "new") H)
    as (w' & Hrun & Hfile & _).
  exists w'. split; [exact Hrun|exact Hfile].
Defined.

Lemma config_mutations_touch_one_entry_witness :
  let gofile_entry := JObj {[ "apiKey" := JStr "G" ]} in
  let w :=
    set_config_file
      (Doc (JObj {[ "services" := JObj {[ "gofile" := gofile_entry ]};
                    "googleDrive" := JObj {[ "clientId" := JStr "id" ]} ]}))
      fresh_world in
  let saved :=
    config_file (final (IndexJs.saveConfig Pixeldrain
                          {[ "apiKey" := JStr "P" ]} "2025-01-01" w)) in
  let deleted := config_file (final (IndexJs.deleteServiceConfig Pixeldrain w)) in
  "gofile" <> service_key Pixeldrain /\
  doc_get2 saved "services" "gofile" = Some gofile_entry /\
  doc_get saved "googleDrive" = Some (JObj {[ "clientId" := JStr "id" ]}) /\
  doc_get2 saved "services" "pixeldrain"
    = Some (service_entry (Some (JStr "P")) "2025-01-01") /\
  doc_get2 deleted "services" "gofile" = Some gofile_entry.
Proof.
  intros gofile_entry w saved deleted.
  assert (Hne : "gofile" <> service_key Pixeldrain) by discriminate.
  split; [exact Hne|].
  destruct (config_mutations_touch_one_entry w Pixeldrain
              {[ "apiKey" := JStr "P" ]} "2025-01-01" "gofile" Hne)
    as (Hs & Hg & Hd & _).
  split; [exact Hs|]. split; [apply Hg; discriminate|].
  split; [reflexivity|exact Hd].
Defined.

Lemma progress_sample_relative_to_previous_witness :
  let p := Pending ToPixeldrain "a.bin" "2048 Bytes" (Tracker 0 0) in
  let ev := ProgressEvent 512 (Some 1024%float) in
  float_truthy 1024 = true /\
  (0 <? (1000 - lastTime (p_tracker p)) / 1000)%float = true /\
  exists s,
    onUploadProgress (p_tracker p) ev 1000 = (Tracker 512 1000, Some s) /\
    speedBps s = 512%float /\
    etaSeconds s = 1%float.
Proof.
  intros p ev.
  split; [reflexivity|]. split; [reflexivity|].
  destruct (progress_sample_relative_to_previous one_file_world p ev 1024 1000
              eq_refl eq_refl eq_refl)
    as (s & Hrun & Htime & Hspeed & Heta & _).
  exists s. split; [exact Hrun|].
  assert (Hs : speedBps s = 512%float).
  { rewrite -> Hspeed, Htime. reflexivity. }
  split; [exact Hs|]. rewrite -> Heta, Hs. reflexivity.
Defined.

(** A Pixeldrain response [{"id": "abc123"}] while the first upload is in
    flight: the entry recorded carries the id and the link built from it. *)
Lemma adapters_record_common_pair_witness :
  let p := Pending ToPixeldrain "a.bin" "2048 Bytes" (Tracker 0 0) in
  let data := JObj {[ "id" := JStr "abc123" ]} in
  let w' := world_of (step (Process one_file_world (Awaiting p))
                        (Resolved data "2025-01-01" true)) in
  history_list (history_file one_file_world) = Some [] /\
  data <> JNull /\
  to_string_val (get data "id") = Some "abc123" /\
  exists entry,
    history_file w' = Doc (JArr [entry]) /\
    get entry "fileId" = Some (JStr "abc123") /\
    get entry "downloadLink" = Some (JStr "https://pixeldrain.com/u/abc123").
Proof.
  intros p data w'.
  assert (Hh : history_list (history_file one_file_world) = Some []) by reflexivity.
  assert (Hd : data <> JNull) by discriminate.
  assert (Hi : to_string_val (get data "id") = Some "abc123") by reflexivity.
  split; [exact Hh|]. split; [exact Hd|]. split; [exact Hi|].
  destruct (adapters_record_common_pair one_file_world p data "2025-01-01" true
              [] Hh "abc123" Hd Hi)
    as (entry & Hfile & _ & Hid & Hlink).
  exists entry. split; [exact Hfile|]. split; [exact Hid|exact Hlink].
Defined.

Lemma pixeldrain_request_uses_basic_auth_witness :
  local_files one_file_world !! "a.bin" = Some 2048%N /\
  exists p w' r,
    uploadToPixeldrain "a.bin" (Some (JStr "secret")) 0 one_file_world
    = Return p w' /\
    sent w' = [r] /\
    req_authorization r = Some "Basic OnNlY3JldA==" /\
    basic_credentials "Basic OnNlY3JldA==" = Some ("", "secret").
Proof.
  assert (Hf : local_files one_file_world !! "a.bin" = Some 2048%N)
    by reflexivity.
  split; [exact Hf|].
  destruct (pixeldrain_request_uses_basic_auth one_file_world "a.bin" "secret"
              0 2048%N Hf)
    as (p & w' & r & Hrun & Hsent & _ & Hauth & Hcred).
  exists p, w', r. split; [exact Hrun|]. split; [exact Hsent|].
  split; [exact Hauth|exact Hcred].
Defined.

Lemma sigint_cancels_only_while_in_flight_witness :
  sigint_listeners one_file_world = [] /\
  aborted one_file_world = false /\
  exists p w1,
    uploadToPixeldrain "a.bin" (Some (JStr "secret")) 0 one_file_world
    = Return p w1 /\
    exists w2,
      step (run (Process w1 (Awaiting p))
              (progress_events [(ProgressEvent 512 (Some 1024%float), 1000%float)]))
        Sigint
      = Process w2 (Exited 0) /\
      aborted w2 = true /\
      history_file w2 = Missing.
Proof.
  split; [reflexivity|]. split; [reflexivity|].
  destruct (uploadToPixeldrain "a.bin" (Some (JStr "secret")) 0 one_file_world)
    as [p w1| |] eqn:Hrun; [|discriminate Hrun..].
  exists p, w1. split; [reflexivity|].
  destruct (sigint_cancels_only_while_in_flight one_file_world w1 "a.bin"
              (Some (JStr "secret")) 0 p
              [(ProgressEvent 512 (Some 1024%float), 1000%float)]
              eq_refl eq_refl Hrun)
    as ((w2 & Hstep & Hab & Hh & _) & _).
  exists w2. split; [exact Hstep|]. split; [exact Hab|exact Hh].
Defined.

(** A network error while the request is in flight: the process exits and
    the history file is as before.  A response: the upload finishes and the
    file holds one entry. *)
Lemma history_entry_iff_upload_succeeds_witness :
  let p := Pending ToPixeldrain "a.bin" "2048 Bytes" (Tracker 0 0) in
  let data := JObj {[ "id" := JStr "abc123" ]} in
  let failed := step (Process one_file_world (Awaiting p)) (Rejected NetworkError) in
  let done := step (Process one_file_world (Awaiting p))
                (Resolved data "2025-01-01" true) in
  (history_file (world_of failed) = Missing /\ status_of failed = Exited 1) /\
  (status_of done = Finished /\
   exists entry, history_file (world_of done) = Doc (JArr [entry])).
Proof.
  intros p data failed done.
  destruct (history_entry_iff_upload_succeeds one_file_world p "a.bin" None 0)
    as (_ & _ & Hrej & _ & _ & Hok).
  split.
  - destruct (Hrej NetworkError) as (Hh & _). split; [exact Hh|reflexivity].
  - refine (Hok data "2025-01-01" true [] "abc123" eq_refl eq_refl _ eq_refl).
    discriminate.
Defined.

(** C5 as stated fails here: no Pixeldrain key is stored and the upload is
    routed to Pixeldrain, yet the process does not fail with an error: the
    user declines the size warning and [uploadFile] exits with status 0,
    never reaching the test of the key. *)
Lemma declined_size_warning_exits_with_status_0 :
  truthy_val (stored_key (config_file big_file_world) Pixeldrain) = false /\
  route (Some "pd") = Pixeldrain /\
  (exists w',
     IndexJs.uploadFile "big.iso" (Some "pd") "n" "2025-01-01" 0 big_file_world
     = Exit 0 w' /\
     console w' = [MsgDeclined; MsgSizeWarning] /\
     sent w' = []) /\
  ~ (exists w',
       IndexJs.uploadFile "big.iso" (Some "pd") "n" "2025-01-01" 0 big_file_world
       = Exit 1 w').
Proof.
  split; [reflexivity|]. split; [reflexivity|].
  assert (H : exists w',
     IndexJs.uploadFile "big.iso" (Some "pd") "n" "2025-01-01" 0 big_file_world
     = Exit 0 w' /\
     console w' = [MsgDeclined; MsgSizeWarning] /\
     sent w' = []).
  { exists (set_console [MsgDeclined; MsgSizeWarning] big_file_world).
    split; [reflexivity|]. split; reflexivity. }
  split; [exact H|].
  destruct H as (w' & Hrun & _). intros (w1 & Hone).
  rewrite -> Hrun in Hone. discriminate Hone.
Qed.

Lemma anonymous_upload_gofile_only_witness :
  let token := JObj {[ "apiKey" := JStr "tok" ]} in
  let configured :=
    set_config_file (Doc (JObj {[ "services" := JObj {[ "gofile" := token ]} ]}))
      one_file_world in
  "a.bin" <> "" /\
  (exists w',
     IndexJs.uploadFile "a.bin" (Some "pd") "" "2025-01-01" 0 one_file_world
     = Exit 1 w' /\
     sent w' = [] /\
     head (console w') = Some MsgNoPixeldrainKey) /\
  (exists p w' r,
     IndexJs.uploadFile "a.bin" None "" "2025-01-01" 0 one_file_world
     = Return (Started p) w' /\
     sent w' = [r] /\
     req_authorization r = None) /\
  (exists p w' r,
     IndexJs.uploadFile "a.bin" (Some "gf") "" "2025-01-01" 0 configured
     = Return (Started p) w' /\
     sent w' = [r] /\
     req_authorization r = Some "Bearer tok").
Proof.
  intros token configured.
  assert (Hne : "a.bin" <> "") by discriminate.
  split; [exact Hne|]. split; [|split].
  - destruct (anonymous_upload_gofile_only one_file_world "a.bin" (Some "pd")
                "" "2025-01-01" 0 Hne) as (Hpd & _).
    destruct (Hpd eq_refl eq_refl) as (w' & Hrun & Hsame & Hmsg).
    exists w'. split; [exact Hrun|].
    split; [apply Hsame|apply Hmsg; reflexivity].
  - destruct (anonymous_upload_gofile_only one_file_world "a.bin" None
                "" "2025-01-01" 0 Hne) as (_ & Hgf).
    destruct (Hgf eq_refl 2048%N eq_refl) as (Hanon & _).
    exact (Hanon eq_refl).
  - destruct (anonymous_upload_gofile_only configured "a.bin" (Some "gf")
                "" "2025-01-01" 0 Hne) as (_ & Hgf).
    destruct (Hgf eq_refl 2048%N eq_refl) as (_ & Htok).
    refine (Htok "tok" eq_refl _). discriminate.
Defined.

Lemma saveHistory_leaves_a_bounded_list_witness :
  exists l,
    history_list
      (history_file (set_history_file (Doc (JArr [JStr "new"])) fresh_world))
    = Some l /\ (length l <= 50)%nat.
Proof.
  exact (saveHistory_leaves_a_bounded_list fresh_world
           (set_history_file (Doc (JArr [JStr "new"])) fresh_world)
           (JStr "new") eq_refl).
Defined.

(** A document of the new format: both entry points read the Gofile token. *)
Lemma credential_lookup_agrees_on_new_format_witness :
  let w :=
    set_config_file
      (Doc (JObj {[ "services" :=
                      JObj {[ "gofile" := JObj {[ "apiKey" := JStr "tok" ]} ]} ]}))
      fresh_world in
  Gofile <> GoogleDrive /\
  legacy_format (config_file w) && is_pixeldrain Gofile = false /\
  result (Part000.getServiceApiKey Gofile "2025-01-01" w)
  = IndexJs.apiKey_of
      <$> result (IndexJs.getServiceCredentials Gofile "2025-01-01" w).
Proof.
  intros w.
  assert (Hs : Gofile <> GoogleDrive) by discriminate.
  assert (Hl : legacy_format (config_file w) && is_pixeldrain Gofile = false)
    by reflexivity.
  split; [exact Hs|]. split; [exact Hl|].
  exact (credential_lookup_agrees_on_new_format w Gofile "2025-01-01" Hs Hl).
Defined.

(** A first key on a machine with no configuration file. *)
Lemma saved_key_is_found_witness :
  Pixeldrain <> GoogleDrive /\
  accepts_service_keys (config_file fresh_world) = true /\
  exists w',
    IndexJs.saveConfig Pixeldrain {[ "apiKey" := JStr "KEY" ]} "2025-01-01"
      fresh_world = Return tt w' /\
    IndexJs.getServiceCredentials Pixeldrain "2025-02-02" w'
    = Return (service_entry (Some (JStr "KEY")) "2025-01-01") w'.
Proof.
  assert (Hs : Pixeldrain <> GoogleDrive) by discriminate.
  assert (Ha : accepts_service_keys (config_file fresh_world) = true)
    by reflexivity.
  split; [exact Hs|]. split; [exact Ha|].
  destruct (saved_key_is_found fresh_world Pixeldrain
              {[ "apiKey" := JStr "KEY" ]} "2025-01-01" "2025-02-02" Hs Ha)
    as (w' & Hrun & Hget & _).
  exists w'. split; [exact Hrun|exact Hget].
Defined.

(** A configuration file that holds [[]]. *)
Lemma unaccepted_key_is_dropped_witness :
  let w := set_config_file (Doc (JArr [])) fresh_world in
  let saved :=
    IndexJs.saveConfig Gofile {[ "apiKey" := JStr "tok" ]} "2025-01-01" w in
  Gofile <> GoogleDrive /\
  accepts_service_keys (config_file w) = false /\
  saved = Return tt w /\
  IndexJs.getServiceCredentials Gofile "2025-02-02" (final saved)
  = Return JNull (final saved).
Proof.
  intros w saved.
  assert (Hs : Gofile <> GoogleDrive) by discriminate.
  assert (Ha : accepts_service_keys (config_file w) = false) by reflexivity.
  split; [exact Hs|]. split; [exact Ha|].
  exact (unaccepted_key_is_dropped w Gofile {[ "apiKey" := JStr "tok" ]}
           "2025-01-01" "2025-02-02" Hs Ha).
Defined.

Lemma deleted_key_is_not_found_witness :
  let entry := JObj {[ "apiKey" := JStr "KEY" ]} in
  let w :=
    set_config_file
      (Doc (JObj {[ "services" := JObj {[ "pixeldrain" := entry ]} ]}))
      fresh_world in
  let w' := final (IndexJs.deleteServiceConfig Pixeldrain w) in
  Pixeldrain <> GoogleDrive /\
  IndexJs.getServiceCredentials Pixeldrain "2025-02-02" w = Return entry w /\
  IndexJs.getServiceCredentials Pixeldrain "2025-02-02" w' = Return JNull w'.
Proof.
  intros entry w w'.
  assert (Hs : Pixeldrain <> GoogleDrive) by discriminate.
  split; [exact Hs|]. split; [reflexivity|].
  exact (deleted_key_is_not_found w Pixeldrain "2025-02-02" Hs).
Defined.

(** A stored Gofile token survives saving and deleting a Pixeldrain key. *)
Lemma lookup_ignores_other_services_witness :
  let token := JObj {[ "apiKey" := JStr "tok" ]} in
  let w :=
    set_config_file
      (Doc (JObj {[ "services" := JObj {[ "gofile" := token ]} ]}))
      fresh_world in
  Gofile <> Pixeldrain /\
  result (IndexJs.getServiceCredentials Gofile "2025-02-02"
            (final (IndexJs.saveConfig Pixeldrain {[ "apiKey" := JStr "KEY" ]}
                      "2025-01-01" w)))
  = Some token /\
  result (IndexJs.getServiceCredentials Gofile "2025-02-02"
            (final (IndexJs.deleteServiceConfig Pixeldrain w)))
  = Some token.
Proof.
  intros token w.
  assert (Hs : Gofile <> Pixeldrain) by discriminate.
  split; [exact Hs|].
  exact (lookup_ignores_other_services w Pixeldrain Gofile
           {[ "apiKey" := JStr "KEY" ]} "2025-01-01" "2025-02-02" Hs).
Defined.

Lemma saved_drive_credentials_give_a_client_witness :
  accepts_sections (config_file fresh_world) = true /\
  exists w',
    IndexJs.saveConfig GoogleDrive
      (<["clientId" := JStr "id"]>
         (<["clientSecret" := JStr "secret"]>
            {[ "refreshToken" := JStr "token" ]})) "2025-01-01" fresh_world
    = Return tt w' /\
    IndexJs.getGoogleDriveClient "2025-02-02" w'
    = Return (Some (IndexJs.OAuth2Client (JStr "id") (JStr "secret")
                      "http://localhost:3000/callback" (JStr "token"))) w'.
Proof.
  assert (Ha : accepts_sections (config_file fresh_world) = true)
    by reflexivity.
  split; [exact Ha|].
  exact (saved_drive_credentials_give_a_client fresh_world (JStr "id")
           (JStr "secret") (JStr "token") "2025-01-01" "2025-02-02"
           Ha eq_refl eq_refl eq_refl).
Defined.

(** The stored document [{"apiKey": "KEY"}] of the old format. *)
Lemma legacy_key_is_migrated_once_witness :
  let w :=
    set_config_file (Doc (JObj {[ "apiKey" := JStr "KEY" ]})) fresh_world in
  legacy_format (config_file w) = true /\
  exists w',
    Part000.getServiceApiKey Pixeldrain "2025-01-01" w
    = Return (Some (JStr "KEY")) w' /\
    legacy_format (config_file w') = false /\
    Part000.getServiceApiKey Pixeldrain "2025-02-02" w'
    = Return (Some (JStr "KEY")) w'.
Proof.
  intros w.
  assert (Hl : legacy_format (config_file w) = true) by reflexivity.
  split; [exact Hl|].
  destruct (legacy_key_is_migrated_once w "2025-01-01" "2025-02-02" Hl)
    as (k & w' & Hk & Hfirst & _ & _ & Hnew & Hsecond & _).
  injection Hk as <-.
  exists w'. split; [exact Hfirst|]. split; [exact Hnew|exact Hsecond].
Defined.

Lemma both_saveConfig_write_the_same_file_witness :
  Gofile <> GoogleDrive /\
  config_file fresh_world <> Unparsable /\
  Part000.saveConfig Gofile (Some (JStr "tok")) "2025-01-01" fresh_world
  = IndexJs.saveConfig Gofile {[ "apiKey" := JStr "tok" ]} "2025-01-01"
      fresh_world.
Proof.
  assert (Hs : Gofile <> GoogleDrive) by discriminate.
  assert (Hu : config_file fresh_world <> Unparsable) by discriminate.
  split; [exact Hs|]. split; [exact Hu|].
  exact (both_saveConfig_write_the_same_file fresh_world Gofile
           (Some (JStr "tok")) "2025-01-01" Hs Hu).
Defined.

Lemma gofile_key_hides_legacy_key_witness :
  let w :=
    set_config_file (Doc (JObj {[ "apiKey" := JStr "KEY" ]})) fresh_world in
  legacy_format (config_file w) = true /\
  result (Part000.getServiceApiKey Pixeldrain "2025-02-02" w)
  = Some (Some (JStr "KEY")) /\
  exists w',
    Part000.saveConfig Gofile (Some (JStr "tok")) "2025-01-01" w
    = Return tt w' /\
    Part000.getServiceApiKey Pixeldrain "2025-02-02" w'
    = Return (Some JNull) w'.
Proof.
  intros w.
  assert (Hl : legacy_format (config_file w) = true) by reflexivity.
  split; [exact Hl|].
  destruct (gofile_key_hides_legacy_key w (Some (JStr "tok")) "2025-01-01"
              "2025-02-02" Hl)
    as (k & w' & Hbefore & _ & Hsave & Hafter & Hk).
  split; [reflexivity|].
  exists w'. split; [exact Hsave|exact Hafter].
Defined.


(** A response, then SIGINT: the upload has finished and recorded its one
    entry; the signal finds no listener and ends the process. *)
Lemma upload_adds_at_most_one_entry_witness :
  let w := set_sigint_listeners [HandleCancel] one_file_world in
  let p := Pending ToPixeldrain "a.bin" "2048 Bytes" (Tracker 0 0) in
  let pr := run (Process w (Awaiting p))
              [Resolved (JObj {[ "id" := JStr "abc123" ]}) "2025-01-01" true;
               Sigint] in
  sigint_listeners w = [HandleCancel] /\
  aborted w = false /\
  status_of pr = Killed /\
  sigint_listeners (world_of pr) = [] /\
  aborted (world_of pr) = false /\
  one_entry_added w (world_of pr).
Proof.
  intros w p pr.
  split; [reflexivity|]. split; [reflexivity|]. split; [reflexivity|].
  exact (upload_adds_at_most_one_entry w p
           [Resolved (JObj {[ "id" := JStr "abc123" ]}) "2025-01-01" true;
            Sigint] eq_refl eq_refl).
Defined.

Lemma successive_saves_keep_the_newest_50_witness :
  history_list (history_file fresh_world) = Some [] /\
  [JStr "first"; JStr "second"] <> [] /\
  exists w',
    saveHistory_each [JStr "first"; JStr "second"] fresh_world = Return tt w' /\
    history_list (history_file w') = Some [JStr "second"; JStr "first"].
Proof.
  assert (Hh : history_list (history_file fresh_world) = Some [])
    by reflexivity.
  assert (Hne : [JStr "first"; JStr "second"] <> []) by discriminate.
  split; [exact Hh|]. split; [exact Hne|].
  destruct (successive_saves_keep_the_newest_50 [JStr "first"; JStr "second"]
              fresh_world [] Hh Hne)
    as (w' & Hrun & Hlist & _).
  exists w'. split; [exact Hrun|exact Hlist].
Defined.

